(** * shockwave/fix_benchmarks.py: the benchmark rewriting script

    A shallow embedding of [fix_benchmark_pattern] and [main] of
    [src/shockwave/fix_benchmarks.py], and the properties of the
    specification that were checked against it.

    Text is a Rocq [string]; a character stands for a code point below
    256, which covers every literal the script tests for.  Python lists
    are Rocq lists read with stdpp's lookup [l !! i]; an index that is
    out of range raises [IndexError], as [lines[i]] does in Python. *)

From Stdlib Require Import ZArith Lia Ascii String.
From stdpp Require Import base list gmap strings.

Local Open Scope Z_scope.
Local Open Scope nat_scope.

(** * Definitions *)

(** ** Python string primitives *)

Module Py.

Definition newline : ascii := "010"%char.
Definition tab : ascii := "009"%char.

(** [sub in s] *)
Fixpoint contains (sub s : string) : bool :=
  match s with
  | EmptyString => String.prefix sub EmptyString
  | String _ s' => String.prefix sub s || contains sub s'
  end.

(** [s.count(c)] for a one-character pattern *)
Fixpoint count (c : ascii) (s : string) : nat :=
  match s with
  | EmptyString => 0
  | String x s' => (if Ascii.eqb x c then 1 else 0) + count c s'
  end.

(** [s.split('\n')]: never empty, a text without newline is one line *)
Fixpoint split (s : string) : list string :=
  match s with
  | EmptyString => [EmptyString]
  | String c s' =>
      if Ascii.eqb c newline then EmptyString :: split s'
      else match split s' with
           | l :: ls => String c l :: ls
           | [] => [String c EmptyString]
           end
  end.

(** [sep.join(l)] *)
Fixpoint join (sep : string) (l : list string) : string :=
  match l with
  | [] => EmptyString
  | [x] => x
  | x :: xs => x +:+ sep +:+ join sep xs
  end.

(** [str.isspace] on one character, for code points below 256 *)
Definition is_space (c : ascii) : bool :=
  match c with
  | "009" | "010" | "011" | "012" | "013"
  | "028" | "029" | "030" | "031" | " " | "133" | "160" => true
  | _ => false
  end%char.

Fixpoint lstrip (s : string) : string :=
  match s with
  | EmptyString => EmptyString
  | String c s' => if is_space c then lstrip s' else s
  end.

Fixpoint rstrip (s : string) : string :=
  match s with
  | EmptyString => EmptyString
  | String c s' =>
      match rstrip s' with
      | EmptyString => if is_space c then EmptyString else String c EmptyString
      | r => String c r
      end
  end.

(** [s.strip()] *)
Definition strip (s : string) : string := rstrip (lstrip s).

(** [s.replace(old, new)] for a non-empty [old]: occurrences are
    replaced left to right without overlap; [skip] counts the
    characters of a matched occurrence that are still to be dropped. *)
Fixpoint replace_from (old new : string) (skip : nat) (s : string) : string :=
  match s with
  | EmptyString => EmptyString
  | String c s' =>
      match skip with
      | S k => replace_from old new k s'
      | O =>
          if String.prefix old s
          then new +:+ replace_from old new (String.length old - 1) s'
          else String c (replace_from old new 0 s')
      end
  end.

Definition replace (old new s : string) : string := replace_from old new 0 s.

(** Truthiness of [None]/[str] and [None]/[int] values in an [if]. *)
Definition truthy_str (v : option string) : bool :=
  match v with
  | Some EmptyString | None => false
  | Some _ => true
  end.

Definition truthy_int (v : option nat) : bool :=
  match v with
  | Some 0 | None => false
  | Some _ => true
  end.

End Py.

Arguments Py.is_space : simpl never.

(** ** Results of Python code

    A value, an uncaught exception, or a loop model that ran out of fuel
    (shown below never to happen). *)

Inductive exn : Set :=
| IndexError
| TypeError
| FileNotFoundError
| IsADirectoryError
| PermissionError
| UnicodeDecodeError
| OSError.

Inductive outcome (A : Type) : Type :=
| Return (a : A)
| Raise (e : exn)
| OutOfFuel.

Arguments Return {A} a.
Arguments Raise {A} e.
Arguments OutOfFuel {A}.

Definition bind {A B} (m : outcome A) (k : A -> outcome B) : outcome B :=
  match m with
  | Return a => k a
  | Raise e => Raise e
  | OutOfFuel => OutOfFuel
  end.

Notation "x <- m ;; k" := (bind m (fun x => k))
  (at level 100, m at next level, right associativity).

(** [lines[i]] *)
Definition get (lines : list string) (i : nat) : outcome string :=
  match lines !! i with
  | Some line => Return line
  | None => Raise IndexError
  end.

(** ** The literals of the script *)

Definition LOOP : string := "for i := 0; i < b.N; i++".
Definition HANDLER_SIG : string := "handler := func(req *Request, rw *ResponseWriter)".
Definition HANDLER_DEF : string := "handler := func".
Definition NEWCONN_OLD : string := "NewConnection(mockConn, config)".
Definition NEWCONN_NEW : string := "NewConnection(mockConn, config, handler)".
Definition SERVE_OLD : string := "conn.Serve(handler)".
Definition SERVE_NEW : string := "conn.Serve()".
Definition OPEN : ascii := "{"%char.
Definition CLOSE : ascii := "}"%char.
Definition NL : string := String Py.newline EmptyString.
Definition TAB : string := String Py.tab EmptyString.

(** ** fix_benchmark_pattern

    [pattern1] and [replace1] (source lines 15-18) are never applied and
    have no counterpart here. *)

(** Source lines 41-49: [for k in range(j, min(j + 15, len(lines)))],
    with [ks] the indices still to visit.  [Some (handler_def, serve_line_idx)]
    when the loop leaves through its [break], [None] when the range is
    used up. *)
Fixpoint extract_handler (lines : list string) (ks : list nat)
    (brace_count : Z) (handler_lines : list string)
    : outcome (option (string * nat)) :=
  match ks with
  | [] => Return None
  | k :: ks' =>
      line <- get lines k ;;
      let handler_lines := handler_lines ++ [line] in
      let brace_count :=
        (brace_count + (Z.of_nat (Py.count OPEN line) - Z.of_nat (Py.count CLOSE line)))%Z in
      if (brace_count =? 0)%Z && Py.contains (String OPEN EmptyString) line
      then Return (Some (Py.join NL handler_lines, k + 2))
      else extract_handler lines ks' brace_count handler_lines
  end.

Definition handler_range (lines : list string) (j : nat) : list nat :=
  seq j (Nat.min (j + 15) (length lines) - j).

(** The three variables set by the look-ahead (source lines 33-35). *)
Record lookahead : Type := Lookahead {
  handler_def : option string;
  newconn_line_idx : option nat;
  serve_line_idx : option nat
}.

(** Source lines 37-53: [while j < len(lines) and j < i + 20]. *)
Fixpoint look_ahead (fuel : nat) (lines : list string) (i j : nat)
    (newconn : option nat) : outcome lookahead :=
  match fuel with
  | 0 => OutOfFuel
  | S fuel' =>
      if (j <? length lines) && (j <? i + 20) then
        line <- get lines j ;;
        if Py.contains HANDLER_SIG line then
          r <- extract_handler lines (handler_range lines j) 0%Z [] ;;
          Return (Lookahead (fst <$> r) newconn (snd <$> r))
        else
          look_ahead fuel' lines i (j + 1)
            (if Py.contains NEWCONN_OLD line then Some j else newconn)
      else Return (Lookahead None newconn None)
  end.

(** Source lines 64-76: [while i <= serve_line_idx].  Every branch reads
    [lines[i]] before anything else, so the read is written once. *)
Fixpoint fix_calls (fuel : nat) (lines : list string)
    (newconn_idx serve_idx : nat) (i : nat) (result : list string)
    : outcome (nat * list string) :=
  match fuel with
  | 0 => OutOfFuel
  | S fuel' =>
      if i <=? serve_idx then
        line <- get lines i ;;
        if i =? newconn_idx then
          fix_calls fuel' lines newconn_idx serve_idx (i + 1)
            (result ++ [Py.replace NEWCONN_OLD NEWCONN_NEW line])
        else if Py.contains HANDLER_DEF line then
          fix_calls fuel' lines newconn_idx serve_idx (i + 1) result
        else if Py.contains SERVE_OLD line then
          fix_calls fuel' lines newconn_idx serve_idx (i + 1)
            (result ++ [Py.replace SERVE_OLD SERVE_NEW line])
        else
          fix_calls fuel' lines newconn_idx serve_idx (i + 1) (result ++ [line])
      else Return (i, result)
  end.

(** One iteration of the outer loop (source lines 27-80) at a cursor
    [i < len(lines)]: the new cursor and the extended result. *)
Definition loop_body (lines : list string) (i : nat) (result : list string)
    : outcome (nat * list string) :=
  line <- get lines i ;;
  if Py.contains LOOP line then
    st <- look_ahead 20 lines i (i + 1) None ;;
    if Py.truthy_str (handler_def st) && Py.truthy_int (newconn_line_idx st) then
      match handler_def st, newconn_line_idx st, serve_line_idx st with
      | Some hd, Some n, Some s =>
          let result := result ++ [TAB +:+ Py.strip hd] in
          let result := result ++ [EmptyString] in
          let result := result ++ [line] in
          fix_calls (s + 2) lines n s (i + 1) result
      | _, _, _ => Raise TypeError
      end
    else Return (i + 1, result ++ [line])
  else Return (i + 1, result ++ [line]).

(** Source line 26: [while i < len(lines)]. *)
Fixpoint main_loop (fuel : nat) (lines : list string) (i : nat)
    (result : list string) : outcome (list string) :=
  match fuel with
  | 0 => OutOfFuel
  | S fuel' =>
      if i <? length lines then
        next <- loop_body lines i result ;;
        main_loop fuel' lines next.1 next.2
      else Return result
  end.

Definition fix_benchmark_pattern (content : string) : outcome string :=
  let lines := Py.split content in
  result <- main_loop (S (length lines)) lines 0 [] ;;
  Return (Py.join NL result).

(** ** main

    What the file system holds under a name decides how [open] and
    [read] end.  A name that is absent gives FileNotFoundError.  A name
    that is present is either a file that can be opened for reading and
    whose bytes decode, with the text that [read] returns and the error,
    if any, that opening it for writing raises (PermissionError on a
    read-only file); or something on which opening or reading fails, with
    the exception raised (IsADirectoryError, PermissionError,
    UnicodeDecodeError, another OSError).  A fault during the transfer
    itself, once the file is open for writing, is outside the model. *)

Inductive node : Type :=
| Readable (content : string) (write_error : option exn)
| Failing (e : exn).

(** The file system and what the script has printed. *)
Record world : Type := World {
  files : gmap string node;
  stdout : list string
}.

(** How the process ends: through [sys.exit] or the end of [main] with
    an exit status (0 when [main] returns), with an uncaught exception
    (traceback), or a loop model out of fuel. *)
Inductive status : Set :=
| Exit (code : Z)
| Uncaught (e : exn)
| Hang.

(** Source lines 84-99. *)
Definition main (argv : list string) (w : world) : world * status :=
  if negb (length argv =? 2) then
    (World (files w) (stdout w ++ ["Usage: fix_benchmarks.py <file>"]), Exit 1)
  else
    match argv !! 1 with
    | None => (w, Uncaught IndexError)
    | Some filename =>
        match files w !! filename with
        | None => (w, Uncaught FileNotFoundError)
        | Some (Failing e) => (w, Uncaught e)
        | Some (Readable content write_error) =>
            match fix_benchmark_pattern content with
            | Return fixed_content =>
                match write_error with
                | Some e => (w, Uncaught e)
                | None =>
                    (World (<[filename := Readable fixed_content None]> (files w))
                           (stdout w ++ ["Fixed " +:+ filename]), Exit 0)
                end
            | Raise e => (w, Uncaught e)
            | OutOfFuel => (w, Hang)
            end
        end
    end.

(** ** Vocabulary of the statements *)

Definition at_line (p : string -> bool) (lines : list string) (m : nat) : bool :=
  from_option p false (lines !! m).

Definition is_loop := at_line (Py.contains LOOP).
Definition is_handler := at_line (Py.contains HANDLER_SIG).
Definition is_handler_def := at_line (Py.contains HANDLER_DEF).
Definition is_newconn := at_line (Py.contains NEWCONN_OLD).
Definition has_open := at_line (Py.contains (String OPEN EmptyString)).

(** [lines[a:b]] *)
Definition slice (lines : list string) (a b : nat) : list string :=
  take (b - a) (drop a lines).

(** Net braces of one line, and of the lines [h..k] together. *)
Definition line_delta (line : string) : Z :=
  (Z.of_nat (Py.count OPEN line) - Z.of_nat (Py.count CLOSE line))%Z.

Definition delta_at (lines : list string) (m : nat) : Z :=
  from_option line_delta 0%Z (lines !! m).

Definition depth (lines : list string) (h k : nat) : Z :=
  foldr (fun m acc => (delta_at lines m + acc)%Z) 0%Z (seq h (S k - h)).

(** Line [k] ends the block opened at [h]: source line 46. *)
Definition closes (lines : list string) (h k : nat) : bool :=
  (depth lines h k =? 0)%Z && has_open lines k.

Definition closes_from (bc : Z) (lines : list string) (k m : nat) : bool :=
  (bc + depth lines k m =? 0)%Z && has_open lines m.

(** [e] is the line at which the block opened at [h] is closed. *)
Definition block_end (lines : list string) (h e : nat) : Prop :=
  h <= e < Nat.min (h + 15) (length lines)
  /\ closes lines h e = true
  /\ forall m, h <= m < e -> closes lines h m = false.

Definition window_end (lines : list string) (i : nat) : nat :=
  Nat.min (i + 20) (length lines).

Definition upd_newconn (lines : list string) (nc : option nat) (m : nat) : option nat :=
  if is_newconn lines m then Some m else nc.

(** The value of [newconn_line_idx] after the lines [j .. j+c-1]. *)
Definition newconn_scan (lines : list string) (j c : nat) (nc : option nat) : option nat :=
  fold_left (upd_newconn lines) (seq j c) nc.

(** [h] is the first handler-definition line after [j0], inside the window of [i]. *)
Definition first_handler (lines : list string) (i j0 h : nat) : Prop :=
  j0 <= h < window_end lines i
  /\ is_handler lines h = true
  /\ forall m, j0 <= m < h -> is_handler lines m = false.

(** The iteration at [m] copies line [m] and moves to [m + 1]. *)
Definition copies (lines : list string) (m : nat) : Prop :=
  exists line, lines !! m = Some line
    /\ forall result, loop_body lines m result = Return (m + 1, result ++ [line]).

(** The look-ahead from the loop line [i] does not find the whole pattern:
    no handler definition in the window, or no old construction call in
    it, or the first handler definition opens a block that no line closes
    within the cap. *)
Definition pattern_miss (lines : list string) (i : nat) : Prop :=
  (forall j, i < j < window_end lines i -> is_handler lines j = false)
  \/ (forall j, i < j < window_end lines i -> is_newconn lines j = false)
  \/ (exists h, first_handler lines i (i + 1) h
        /\ forall k, h <= k < Nat.min (h + 15) (length lines) -> closes lines h k = false).

Fixpoint nonblank (s : string) : bool :=
  match s with
  | EmptyString => false
  | String c s' => negb (Py.is_space c) || nonblank s'
  end.

Definition lstrip_first (block : list string) : list string :=
  match block with
  | [] => []
  | x :: xs => Py.lstrip x :: xs
  end.

Fixpoint rstrip_last (block : list string) : list string :=
  match block with
  | [] => []
  | [x] => [Py.rstrip x]
  | x :: xs => x :: rstrip_last xs
  end.

(** The block with the indentation of its first line and the trailing
    blanks of its last line removed; the lines in between are untouched. *)
Definition trim_ends (block : list string) : list string :=
  rstrip_last (lstrip_first block).

(** What the re-emission loop appends for line [m] (source lines 65-75). *)
Definition emit_line (lines : list string) (n m : nat) : list string :=
  from_option
    (fun line =>
       if m =? n then [Py.replace NEWCONN_OLD NEWCONN_NEW line]
       else if Py.contains HANDLER_DEF line then []
       else if Py.contains SERVE_OLD line then [Py.replace SERVE_OLD SERVE_NEW line]
       else [line])
    [] (lines !! m).

(** A line outside the handler block and other than the construction
    call, as the re-emission loop leaves it. *)
Definition fix_serve (line : string) : string :=
  if Py.contains SERVE_OLD line then Py.replace SERVE_OLD SERVE_NEW line else line.

(** The conditions under which the pattern counts as not fully matched
    at the loop line [i]: no handler definition in the window, no old
    construction call in the window, or a handler definition whose brace
    depth does not come back to zero within the 15-line cap. *)
Definition not_fully_matched (lines : list string) (i : nat) : Prop :=
  (forall j, i < j < window_end lines i -> is_handler lines j = false)
  \/ (forall j, i < j < window_end lines i -> is_newconn lines j = false)
  \/ (exists h, first_handler lines i (i + 1) h
        /\ forall k, h <= k < Nat.min (h + 15) (length lines) -> depth lines h k <> 0%Z).

(** No line carries the old construction call or the old usage call. *)
Definition new_call_shape (lines : list string) : Prop :=
  forall line, line ∈ lines ->
    Py.contains NEWCONN_OLD line = false /\ Py.contains SERVE_OLD line = false.

(** The loop line [i] is followed in its window by the old construction
    call at [n] and then by a handler block that opens and closes on the
    one line [h]; the usage index [h + 2] is a line of the text, and
    from the loop line to the usage index no line other than [h] and the
    construction-call line holds the text [handler := func]. *)
Definition single_line_match (lines : list string) (i n h : nat) : Prop :=
  first_handler lines i (i + 1) h
  /\ closes lines h h = true
  /\ (i < n < h /\ is_newconn lines n = true
      /\ forall m, n < m < h -> is_newconn lines m = false)
  /\ h + 2 < length lines
  /\ forall m, i < m <= h + 2 -> m <> h -> m <> n -> is_handler_def lines m = false.

(** The rewritten text for such a match. *)
Definition single_line_output (lines : list string) (i n h : nat)
    (loop_line newconn_line handler_line : string) : list string :=
  take i lines
  ++ [TAB +:+ Py.strip handler_line; EmptyString; loop_line]
  ++ map fix_serve (slice lines (i + 1) n)
  ++ [Py.replace NEWCONN_OLD NEWCONN_NEW newconn_line]
  ++ map fix_serve (slice lines (n + 1) h)
  ++ map fix_serve (slice lines (h + 1) (h + 3))
  ++ drop (h + 3) lines.

(** ** Example texts *)

Definition spec_example : string :=
"func BenchmarkX(b *testing.B) {
	for i := 0; i < b.N; i++ {
		mockConn := newMockConn(requestData)
		config := DefaultConnectionConfig()
		conn := NewConnection(mockConn, config)
		handler := func(req *Request, rw *ResponseWriter) error { return nil }

		conn.Serve(handler)
	}
}".

Definition unclosed_example : string :=
"for i := 0; i < b.N; i++ {
	conn := NewConnection(mockConn, config)
	handler := func(req *Request, rw *ResponseWriter) error {
		return nil".

Definition migrated_example : string :=
"func BenchmarkX(b *testing.B) {
	handler := func(req *Request, rw *ResponseWriter) error { return nil }

	for i := 0; i < b.N; i++ {
		mockConn := newMockConn(requestData)
		config := DefaultConnectionConfig()
		conn := NewConnection(mockConn, config, handler)

		conn.Serve()
	}
}".

Definition nested_block_example : string :=
"	for i := 0; i < b.N; i++ {
		conn := NewConnection(mockConn, config)
		handler := func(req *Request, rw *ResponseWriter) error {
			if req == nil {
				return nil
			}
			return nil
		}

		conn.Serve(handler)
	}".

Definition nested_closing_example : string :=
"handler := func(req *Request, rw *ResponseWriter) error {
	if req == nil { return nil }
	return rw.Send(map[string]string{}) }
conn.Serve(handler)".

Definition call_before_handler : string :=
"	for i := 0; i < b.N; i++ {
		conn := NewConnection(mockConn, config)
		handler := func(req *Request, rw *ResponseWriter) error { return nil }

		conn.Serve(handler)
	}".

Definition call_after_handler : string :=
"	for i := 0; i < b.N; i++ {
		handler := func(req *Request, rw *ResponseWriter) error { return nil }
		conn := NewConnection(mockConn, config)

		conn.Serve(handler)
	}".

Definition two_line_handler_example : string :=
"	for i := 0; i < b.N; i++ {
		conn := NewConnection(mockConn, config)
				handler := func(req *Request, rw *ResponseWriter) error {
			return rw.WriteJSON(200, map[string]string{}) }

		conn.Serve(handler)
	}".

Definition two_line_lookahead : lookahead :=
  Eval vm_compute in
    match look_ahead 20 (Py.split two_line_handler_example) 0 1 None with
    | Return st => st
    | _ => Lookahead None None None
    end.

Definition late_usage_example : string :=
"	for i := 0; i < b.N; i++ {
		conn := NewConnection(mockConn, config)
		handler := func(req *Request, rw *ResponseWriter) error { return nil }
		mockConn.Reset()
		b.StartTimer()
		conn.Serve(handler)
	}".

Definition late_usage_output : string :=
"	handler := func(req *Request, rw *ResponseWriter) error { return nil }

	for i := 0; i < b.N; i++ {
		conn := NewConnection(mockConn, config, handler)
		mockConn.Reset()
		b.StartTimer()
		conn.Serve(handler)
	}".

Definition eof_example : string :=
"	for i := 0; i < b.N; i++ {
		conn := NewConnection(mockConn, config)
		handler := func(req *Request, rw *ResponseWriter) error { return nil }
		conn.Serve(handler)".

Definition two_line_handler_output : string :=
"	handler := func(req *Request, rw *ResponseWriter) error {
			return rw.WriteJSON(200, map[string]string{}) }

	for i := 0; i < b.N; i++ {
		conn := NewConnection(mockConn, config, handler)
			return rw.WriteJSON(200, map[string]string{}) }

		conn.Serve()
	}".

(** A loop line, the old construction call, [gap] other lines, then a
    one-line handler block and the usage call two lines after it. *)
Definition far_handler (gap : nat) : string :=
  Py.join NL
    (["	for i := 0; i < b.N; i++ {"; "		conn := NewConnection(mockConn, config)"]
     ++ replicate gap "		b.SetBytes(1)"
     ++ ["		handler := func(req *Request, rw *ResponseWriter) error { return nil }";
         ""; "		conn.Serve(handler)"; "	}"]).

(** ** Vocabulary of the further properties *)

(** The lines of the text as the outer loop rewrites them: the body of
    [fix_benchmark_pattern] between [split] and [join]. *)
Definition rewrite_lines (lines : list string) : outcome (list string) :=
  main_loop (S (length lines)) lines 0 [].

(** The whole pattern is found from the loop line [i]: [h] is the first
    handler-definition line of the window, the brace counter closes its
    block at [e], and [n] is the last old construction call strictly
    between [i] and [h]. *)
Definition matched (lines : list string) (i h e n : nat) : Prop :=
  first_handler lines i (i + 1) h
  /\ block_end lines h e
  /\ i < n < h /\ is_newconn lines n = true
  /\ forall m, n < m < h -> is_newconn lines m = false.

(** The scan from the loop line [i] fails: the window holds no handler
    definition, or the block of the first one is not closed within the
    cap, or no old construction call stands between [i] and it. *)
Definition scan_fails (lines : list string) (i : nat) : Prop :=
  (forall j, i < j < window_end lines i -> is_handler lines j = false)
  \/ exists h, first_handler lines i (i + 1) h
       /\ ((forall k, h <= k < Nat.min (h + 15) (length lines) -> closes lines h k = false)
           \/ (forall m, i < m < h -> is_newconn lines m = false)).

(** Line [line] of the input is present in the output lines [r], as it
    was or with one of the two call replacements applied. *)
Definition kept (line : string) (r : list string) : Prop :=
  line ∈ r
  \/ Py.replace NEWCONN_OLD NEWCONN_NEW line ∈ r
  \/ Py.replace SERVE_OLD SERVE_NEW line ∈ r.

Definition plain_example : string :=
"package shockwave

func helper() int {
	return 1
}
".

Definition preamble_example : string :=
"package shockwave

func BenchmarkServe(b *testing.B) {".

Definition second_block_example : string :=
"	for i := 0; i < b.N; i++ {
		conn := NewConnection(mockConn, config)
		handler := func(req *Request, rw *ResponseWriter) error { return rw.Flush() }
		b.SetBytes(1)
		conn.Serve(handler)
	}
}".

(** ** serve.py: WASMHTTPRequestHandler.guess_type

    [super().guess_type] belongs to the standard library's
    [SimpleHTTPRequestHandler]; it is a parameter of the model. *)

Module Serve.

(** [s.endswith(suffix)] *)
Fixpoint endswith (s suffix : string) : bool :=
  if String.eqb s suffix then true
  else match s with
       | EmptyString => false
       | String _ s' => endswith s' suffix
       end.

(** Source lines 17-21 of [serve.py]. *)
Definition guess_type (super_guess_type : string -> string) (path : string) : string :=
  let mimetype := super_guess_type path in
  if endswith path ".wasm" then "application/wasm" else mimetype.

End Serve.

(** The cursor of the outer loop takes the value [i] in the run on
    [lines]: it starts at 0 and moves as the iterations return. *)
Inductive reaches (lines : list string) : nat -> Prop :=
| reaches_start : reaches lines 0
| reaches_next i i' result result' :
    reaches lines i ->
    loop_body lines i result = Return (i', result') ->
    reaches lines i'.

(** Some matched block has its usage index past the last line. *)
Definition usage_past_end (lines : list string) : Prop :=
  exists i h e n,
    is_loop lines i = true /\ matched lines i h e n /\ length lines <= e + 2.

(** * Lemmas *)

(** ** The string primitives on examples *)

Example split_ex : Py.split "a
b

c" = ["a"; "b"; ""; "c"].
Proof. reflexivity. Qed.

Example strip_ex : Py.strip "  	x { y }  " = "x { y }".
Proof. reflexivity. Qed.

Example replace_ex : Py.replace "ab" "X" "cababab-ab" = "cXXX-X".
Proof. reflexivity. Qed.

Example contains_ex :
  Py.contains "NewConnection(mockConn, config)" "conn := NewConnection(mockConn, config, handler)" = false
  /\ Py.contains "NewConnection(mockConn, config)" "conn := NewConnection(mockConn, config)" = true.
Proof. split; reflexivity. Qed.

(** ** Splitting, joining and searching *)

Lemma split_not_nil s : Py.split s <> [].
Proof.
  destruct s as [|c s]; simpl; [discriminate|].
  destruct (Ascii.eqb c Py.newline); [discriminate|].
  destruct (Py.split s); discriminate.
Qed.

Lemma join_cons sep x y l :
  Py.join sep (x :: y :: l) = x +:+ sep +:+ Py.join sep (y :: l).
Proof. reflexivity. Qed.

Lemma join_split s : Py.join NL (Py.split s) = s.
Proof.
  induction s as [|c s IH]; simpl; [reflexivity|].
  destruct (Ascii.eqb c Py.newline) eqn:E.
  - apply Ascii.eqb_eq in E. subst c.
    destruct (Py.split s) as [|l ls] eqn:Hs; [by apply split_not_nil in Hs|].
    rewrite join_cons, IH. reflexivity.
  - destruct (Py.split s) as [|l ls] eqn:Hs; [by apply split_not_nil in Hs|].
    destruct ls as [|l' ls].
    + simpl in *. by rewrite IH.
    + rewrite join_cons. rewrite join_cons in IH. rewrite <- IH. reflexivity.
Qed.

Lemma prefix_trans p q s :
  String.prefix p q = true -> String.prefix q s = true -> String.prefix p s = true.
Proof.
  revert q s. induction p as [|c p IH]; intros q s Hpq Hqs; [by destruct s|].
  destruct q as [|d q]; [discriminate|]. destruct s as [|e s]; [discriminate|].
  simpl in *. destruct (ascii_dec c d) as [->|]; [|discriminate].
  destruct (ascii_dec d e) as [->|]; [|discriminate]. eauto.
Qed.

Lemma contains_prefix p q s :
  String.prefix p q = true -> Py.contains q s = true -> Py.contains p s = true.
Proof.
  intros Hpq. induction s as [|c s IH]; cbn [Py.contains].
  - intros H. by apply (prefix_trans p q).
  - intros [H|H]%orb_true_iff.
    + by rewrite (prefix_trans p q _ Hpq H).
    + rewrite IH by done. apply orb_true_r.
Qed.

Lemma handler_sig_def line :
  Py.contains HANDLER_SIG line = true -> Py.contains HANDLER_DEF line = true.
Proof. by apply contains_prefix. Qed.

Lemma prefix_app p s : String.prefix p (p +:+ s) = true.
Proof.
  induction p as [|c p IH]; [by destruct s|].
  change (String c p +:+ s) with (String c (p +:+ s)). simpl.
  destruct (ascii_dec c c); [exact IH|done].
Qed.

Lemma replace_from_skip old new s1 post :
  Py.replace_from old new (String.length s1) (s1 +:+ post)
  = Py.replace_from old new 0 post.
Proof.
  induction s1 as [|c s1 IH]; [by destruct post|exact IH].
Qed.

Lemma replace_absent old new s :
  Py.contains old s = false -> Py.replace old new s = s.
Proof.
  unfold Py.replace. induction s as [|c s IH]; [reflexivity|].
  cbn [Py.contains Py.replace_from]. intros [Hp Hc]%orb_false_iff.
  rewrite Hp. f_equal. by apply IH.
Qed.

(** The first occurrence of [old] is replaced where it stands when its
    first character does not occur before it. *)
Lemma replace_first c old' new pre post :
  Py.count c pre = 0 ->
  Py.replace (String c old') new (pre +:+ String c old' +:+ post)
  = pre +:+ new +:+ Py.replace (String c old') new post.
Proof.
  unfold Py.replace. induction pre as [|d pre IH]; intros Hcount.
  - change (EmptyString +:+ String c old' +:+ post) with (String c (old' +:+ post)).
    cbn [Py.replace_from].
    change (String c (old' +:+ post)) with (String c old' +:+ post).
    rewrite prefix_app.
    replace (String.length (String c old') - 1) with (String.length old')
      by (cbn [String.length]; lia).
    by rewrite replace_from_skip.
  - change (String d pre +:+ String c old' +:+ post)
      with (String d (pre +:+ String c old' +:+ post)).
    cbn [Py.count] in Hcount.
    destruct (Ascii.eqb d c) eqn:E; [lia|].
    cbn [Py.replace_from].
    assert (Hp : String.prefix (String c old')
                   (String d (pre +:+ String c old' +:+ post)) = false).
    { simpl. destruct (ascii_dec c d) as [->|]; [|reflexivity].
      by rewrite Ascii.eqb_refl in E. }
    rewrite Hp, IH by (simpl in Hcount; lia). reflexivity.
Qed.

(** On a line with one old construction call the call gains the one
    argument [handler]; on a line with one old usage call the call loses
    its argument. *)
Lemma construction_call_gains_handler pre post :
  Py.count "N"%char pre = 0 -> Py.contains NEWCONN_OLD post = false ->
  Py.replace NEWCONN_OLD NEWCONN_NEW
    (pre +:+ "NewConnection(mockConn, config" +:+ ")" +:+ post)
  = pre +:+ "NewConnection(mockConn, config" +:+ ", handler" +:+ ")" +:+ post.
Proof.
  intros Hpre Hpost.
  change (pre +:+ "NewConnection(mockConn, config" +:+ ")" +:+ post)
    with (pre +:+ NEWCONN_OLD +:+ post).
  unfold NEWCONN_OLD at 1 2. rewrite replace_first by exact Hpre.
  fold NEWCONN_OLD. by rewrite (replace_absent _ _ _ Hpost).
Qed.

Lemma usage_call_loses_argument pre post :
  Py.count "c"%char pre = 0 -> Py.contains SERVE_OLD post = false ->
  Py.replace SERVE_OLD SERVE_NEW (pre +:+ "conn.Serve(" +:+ "handler" +:+ ")" +:+ post)
  = pre +:+ "conn.Serve(" +:+ ")" +:+ post.
Proof.
  intros Hpre Hpost.
  change (pre +:+ "conn.Serve(" +:+ "handler" +:+ ")" +:+ post)
    with (pre +:+ SERVE_OLD +:+ post).
  unfold SERVE_OLD at 1 2. rewrite replace_first by exact Hpre.
  fold SERVE_OLD. by rewrite (replace_absent _ _ _ Hpost).
Qed.

(** ** Stripping *)

Lemma nonblank_app_l a b : nonblank a = true -> nonblank (a +:+ b) = true.
Proof.
  induction a as [|c a IH]; simpl; [discriminate|].
  destruct (Py.is_space c); simpl; [exact IH|reflexivity].
Qed.

Lemma nonblank_app_r a b : nonblank b = true -> nonblank (a +:+ b) = true.
Proof.
  intros Hb. induction a as [|c a IH]; simpl; [exact Hb|].
  rewrite IH. apply orb_true_r.
Qed.

Lemma prefix_nonblank p s :
  String.prefix p s = true -> nonblank p = true -> nonblank s = true.
Proof.
  revert s. induction p as [|c p IH]; intros s Hp Hn; [discriminate|].
  destruct s as [|d s]; [discriminate|]. simpl in Hp.
  destruct (ascii_dec c d) as [->|]; [|discriminate].
  simpl in *. destruct (Py.is_space d); simpl in *; [eauto|reflexivity].
Qed.

Lemma contains_nonblank sub s :
  Py.contains sub s = true -> nonblank sub = true -> nonblank s = true.
Proof.
  intros Hc Hn. induction s as [|c s IH]; simpl in Hc.
  - destruct sub; [discriminate Hn|discriminate Hc].
  - apply orb_true_iff in Hc as [Hp|Hc].
    + by apply (prefix_nonblank sub).
    + simpl. rewrite IH by done. apply orb_true_r.
Qed.

Lemma nonblank_lstrip s : nonblank (Py.lstrip s) = nonblank s.
Proof.
  induction s as [|c s IH]; simpl; [reflexivity|].
  destruct (Py.is_space c) eqn:E; simpl; [exact IH|by rewrite E].
Qed.

Create HintDb nonblank.
#[local] Hint Resolve nonblank_app_l nonblank_app_r : nonblank.

Lemma lstrip_head s :
  nonblank s = true -> exists c r, Py.lstrip s = String c r /\ Py.is_space c = false.
Proof.
  induction s as [|c s IH]; simpl; [discriminate|].
  destruct (Py.is_space c) eqn:E; simpl; [exact IH|eauto].
Qed.

Lemma lstrip_app a b : nonblank a = true -> Py.lstrip (a +:+ b) = Py.lstrip a +:+ b.
Proof.
  induction a as [|c a IH]; simpl; [discriminate|].
  destruct (Py.is_space c); simpl; [exact IH|reflexivity].
Qed.

Lemma rstrip_nonblank s : nonblank s = true -> Py.rstrip s <> EmptyString.
Proof.
  induction s as [|c s IH]; simpl; [discriminate|].
  destruct (Py.is_space c) eqn:E; simpl.
  - intros H. specialize (IH H). destruct (Py.rstrip s); [done|discriminate].
  - intros _. destruct (Py.rstrip s); discriminate.
Qed.

Lemma rstrip_head c s :
  Py.is_space c = false -> exists r, Py.rstrip (String c s) = String c r.
Proof.
  intros E. simpl. rewrite E. destruct (Py.rstrip s); eauto.
Qed.

Lemma rstrip_app a b : nonblank b = true -> Py.rstrip (a +:+ b) = a +:+ Py.rstrip b.
Proof.
  intros Hb. induction a as [|c a IH]; [reflexivity|].
  change (String c a +:+ b) with (String c (a +:+ b)).
  change (String c a +:+ Py.rstrip b) with (String c (a +:+ Py.rstrip b)).
  cbn [Py.rstrip]. rewrite IH.
  destruct (a +:+ Py.rstrip b) eqn:E; [|reflexivity].
  destruct a; [|discriminate E]. simpl in E.
  by apply rstrip_nonblank in Hb.
Qed.

Lemma nonblank_join_head x l : nonblank x = true -> nonblank (Py.join NL (x :: l)) = true.
Proof.
  intros H. destruct l as [|y l]; [exact H|].
  rewrite join_cons. auto with nonblank.
Qed.

Lemma nonblank_join_last l d :
  l <> [] -> nonblank (List.last l d) = true -> nonblank (Py.join NL l) = true.
Proof.
  induction l as [|x l IH]; [done|]. intros _ Hl.
  destruct l as [|y l]; [exact Hl|].
  rewrite join_cons. assert (nonblank (Py.join NL (y :: l)) = true)
    by (apply IH; [discriminate|exact Hl]).
  auto with nonblank.
Qed.

Lemma rstrip_join l d :
  l <> [] -> nonblank (List.last l d) = true ->
  Py.rstrip (Py.join NL l) = Py.join NL (rstrip_last l).
Proof.
  induction l as [|x l IH]; [done|]. intros _ Hl.
  destruct l as [|y l]; [reflexivity|].
  rewrite join_cons.
  change (rstrip_last (x :: y :: l)) with (x :: rstrip_last (y :: l)).
  assert (Hnb : nonblank (Py.join NL (y :: l)) = true)
    by (apply (nonblank_join_last _ d); [discriminate|exact Hl]).
  rewrite rstrip_app by auto with nonblank.
  rewrite rstrip_app by exact Hnb.
  rewrite IH by (discriminate || exact Hl).
  destruct (rstrip_last (y :: l)) eqn:E; [|reflexivity].
  destruct l; discriminate E.
Qed.

Lemma last_lstrip_first x l d :
  nonblank (List.last (x :: l) d) = true ->
  nonblank (List.last (lstrip_first (x :: l)) d) = true.
Proof.
  destruct l as [|y l]; simpl; [by rewrite nonblank_lstrip|done].
Qed.

Lemma strip_join x l d :
  nonblank x = true -> nonblank (List.last (x :: l) d) = true ->
  Py.strip (Py.join NL (x :: l)) = Py.join NL (trim_ends (x :: l)).
Proof.
  intros Hx Hl. unfold Py.strip, trim_ends.
  assert (Hls : Py.lstrip (Py.join NL (x :: l)) = Py.join NL (lstrip_first (x :: l))).
  { destruct l as [|y l]; [reflexivity|].
    rewrite join_cons. rewrite lstrip_app by exact Hx. reflexivity. }
  rewrite Hls. apply (rstrip_join _ d); [discriminate|].
  by apply last_lstrip_first.
Qed.

Lemma strip_head s :
  nonblank s = true -> exists c r, Py.strip s = String c r /\ Py.is_space c = false.
Proof.
  intros H. destruct (lstrip_head s H) as (c & r & Hl & Hc).
  unfold Py.strip. rewrite Hl.
  destruct (rstrip_head c r Hc) as (r' & Hr). eauto.
Qed.

Lemma nonblank_not_empty s : nonblank s = true -> Py.truthy_str (Some s) = true.
Proof. destruct s; [discriminate|reflexivity]. Qed.

Lemma handler_sig_nonblank line :
  Py.contains HANDLER_SIG line = true -> nonblank line = true.
Proof. intros H. by apply (contains_nonblank HANDLER_SIG). Qed.

Lemma open_nonblank line :
  Py.contains (String OPEN EmptyString) line = true -> nonblank line = true.
Proof. intros H. by apply (contains_nonblank (String OPEN EmptyString)). Qed.

(** ** Lines and slices *)

Lemma get_Some lines i line : lines !! i = Some line -> get lines i = Return line.
Proof. unfold get. by intros ->. Qed.

Lemma get_lt lines i : i < length lines -> exists line, lines !! i = Some line /\ get lines i = Return line.
Proof.
  intros H. destruct (lookup_lt_is_Some_2 lines i H) as [line Hl].
  exists line. split; [done|by apply get_Some].
Qed.

Lemma at_line_Some p lines m :
  at_line p lines m = true -> exists line, lines !! m = Some line /\ p line = true.
Proof.
  unfold at_line. destruct (lines !! m) as [line|]; [eauto|discriminate].
Qed.

Lemma slice_cons lines k e line :
  lines !! k = Some line -> k <= e ->
  slice lines k (S e) = line :: slice lines (S k) (S e).
Proof.
  intros Hk Hle. unfold slice.
  rewrite (drop_S _ _ _ Hk).
  replace (S e - k) with (S (S e - S k)) by lia. reflexivity.
Qed.

Lemma slice_one lines k line : lines !! k = Some line -> slice lines k (S k) = [line].
Proof.
  intros Hk. unfold slice. rewrite (drop_S _ _ _ Hk).
  replace (S k - k) with 1 by lia. simpl. by rewrite take_0.
Qed.

Lemma slice_nil lines a : slice lines a a = [].
Proof. unfold slice. by rewrite Nat.sub_diag, take_0. Qed.

Lemma slice_snoc lines h e le :
  lines !! e = Some le -> h <= e -> slice lines h (S e) = slice lines h e ++ [le].
Proof.
  intros He Hle. unfold slice. replace (S e - h) with (S (e - h)) by lia.
  apply take_S_r. rewrite lookup_drop. by replace (h + (e - h)) with e by lia.
Qed.

Lemma slice_lookup lines a b k : k < b - a -> slice lines a b !! k = lines !! (a + k).
Proof. intros H. unfold slice. by rewrite lookup_take_lt, lookup_drop. Qed.

Lemma slice_length lines a b : b <= length lines -> length (slice lines a b) = b - a.
Proof. intros H. unfold slice. rewrite length_take, length_drop. lia. Qed.

Lemma seq_split a b c : a <= b <= c -> seq a (c - a) = seq a (b - a) ++ seq b (c - b).
Proof.
  intros H. replace (c - a) with ((b - a) + (c - b)) by lia.
  rewrite seq_app. by replace (a + (b - a)) with b by lia.
Qed.

Lemma rstrip_last_lookup l : forall m, S m < length l -> rstrip_last l !! m = l !! m.
Proof.
  induction l as [|x l IH]; intros m Hm; [reflexivity|].
  destruct l as [|y l]; [simpl in Hm; lia|].
  change (rstrip_last (x :: y :: l)) with (x :: rstrip_last (y :: l)).
  destruct m as [|m]; [reflexivity|]. simpl. apply IH. simpl in *. lia.
Qed.

Lemma trim_ends_interior block m :
  0 < m -> S m < length block -> trim_ends block !! m = block !! m.
Proof.
  intros H0 Hm. unfold trim_ends.
  destruct block as [|x xs]; [reflexivity|].
  rewrite rstrip_last_lookup by exact Hm.
  destruct m; [lia|reflexivity].
Qed.

(** ** The brace counter *)

Section BraceCounter.

Context (lines : list string).

Lemma depth_self k : depth lines k k = delta_at lines k.
Proof.
  unfold depth. replace (S k - k) with 1 by lia. simpl. lia.
Qed.

Lemma depth_step k m :
  k < m -> depth lines k m = (delta_at lines k + depth lines (S k) m)%Z.
Proof.
  intros H. unfold depth.
  replace (S m - k) with (S (S m - S k)) by lia. reflexivity.
Qed.

Lemma closes_from_0 h k : closes_from 0 lines h k = closes lines h k.
Proof. reflexivity. Qed.

Lemma closes_depth h k : depth lines h k <> 0%Z -> closes lines h k = false.
Proof. intros H. unfold closes. by apply Z.eqb_neq in H as ->. Qed.

Lemma extract_handler_seq c : forall k bc hl,
  k + c <= length lines ->
  (extract_handler lines (seq k c) bc hl = Return None
   /\ forall m, k <= m < k + c -> closes_from bc lines k m = false)
  \/ (exists e, k <= e < k + c
        /\ closes_from bc lines k e = true
        /\ (forall m, k <= m < e -> closes_from bc lines k m = false)
        /\ extract_handler lines (seq k c) bc hl
           = Return (Some (Py.join NL (hl ++ slice lines k (S e)), e + 2))).
Proof.
  induction c as [|c IH]; intros k bc hl Hlen.
  - left. split; [reflexivity|]. intros m Hm. lia.
  - destruct (get_lt lines k ltac:(lia)) as (line & Hk & Hget).
    assert (Hd : delta_at lines k = line_delta line)
      by (unfold delta_at; by rewrite Hk).
    assert (Ho : has_open lines k = Py.contains (String OPEN EmptyString) line)
      by (unfold has_open, at_line; by rewrite Hk).
    assert (Hself : closes_from bc lines k k
              = (bc + line_delta line =? 0)%Z && Py.contains (String OPEN EmptyString) line)
      by (unfold closes_from; by rewrite depth_self, Hd, Ho).
    assert (Hshift : forall m, S k <= m ->
              closes_from (bc + line_delta line) lines (S k) m = closes_from bc lines k m).
    { intros m Hm. unfold closes_from. rewrite (depth_step k m) by lia.
      rewrite Hd. by rewrite Z.add_assoc. }
    cbn [seq extract_handler]. rewrite Hget. cbn [bind].
    fold (line_delta line).
    destruct ((bc + line_delta line =? 0)%Z && Py.contains (String OPEN EmptyString) line) eqn:Hc.
    + right. exists k. split; [lia|]. split; [by rewrite Hself|].
      split; [intros m Hm; lia|].
      by rewrite (slice_one _ _ _ Hk).
    + destruct (IH (S k) (bc + line_delta line)%Z (hl ++ [line]) ltac:(lia))
        as [[Hr Hall]|(e & He & Hce & Hfirst & Hr)].
      * left. split; [exact Hr|]. intros m Hm.
        destruct (decide (m = k)) as [->|Hne]; [by rewrite Hself|].
        rewrite <- Hshift by lia. apply Hall. lia.
      * right. exists e. split; [lia|]. split; [by rewrite <- Hshift by lia|].
        split.
        { intros m Hm. destruct (decide (m = k)) as [->|Hne]; [by rewrite Hself|].
          rewrite <- Hshift by lia. apply Hfirst. lia. }
        rewrite Hr. rewrite (slice_cons _ _ _ _ Hk) by lia.
        by rewrite <- app_assoc.
Qed.

Lemma extract_handler_cases h :
  (extract_handler lines (handler_range lines h) 0 [] = Return None
   /\ forall m, h <= m < Nat.min (h + 15) (length lines) -> closes lines h m = false)
  \/ (exists e, block_end lines h e
        /\ extract_handler lines (handler_range lines h) 0 []
           = Return (Some (Py.join NL (slice lines h (S e)), e + 2))).
Proof.
  unfold handler_range, block_end.
  destruct (decide (h <= length lines)) as [Hle|Hgt]; cycle 1.
  { left. replace (Nat.min (h + 15) (length lines) - h) with 0 by lia.
    split; [reflexivity|]. intros m Hm. lia. }
  destruct (extract_handler_seq (Nat.min (h + 15) (length lines) - h) h 0%Z [])
    as [[Hr Hall]|(e & He & Hc & Hfirst & Hr)]; [lia| |].
  - left. split; [exact Hr|]. intros m Hm. rewrite <- closes_from_0. apply Hall. lia.
  - right. exists e. repeat split; try lia; [exact Hc| |exact Hr].
    intros m Hm. rewrite <- closes_from_0. by apply Hfirst.
Qed.

Lemma block_end_unique h e e' :
  block_end lines h e -> block_end lines h e' -> e = e'.
Proof.
  intros (He & Hc & Hf) (He' & Hc' & Hf').
  destruct (Nat.lt_trichotomy e e') as [Hlt|[Heq|Hgt]]; [|exact Heq|].
  - rewrite Hf' in Hc by lia. discriminate.
  - rewrite Hf in Hc' by lia. discriminate.
Qed.

End BraceCounter.

(** ** The look-ahead scan *)

Section LookAhead.

Context (lines : list string).

Lemma newconn_scan_cons j c nc :
  newconn_scan lines j (S c) nc = newconn_scan lines (S j) c (upd_newconn lines nc j).
Proof. reflexivity. Qed.

Lemma newconn_scan_snoc j c nc :
  newconn_scan lines j (S c) nc = upd_newconn lines (newconn_scan lines j c nc) (j + c).
Proof. unfold newconn_scan. by rewrite seq_S, fold_left_app. Qed.

Lemma look_ahead_cases i : forall fuel j nc,
  i + 20 - j < fuel ->
  ((forall m, j <= m < window_end lines i -> is_handler lines m = false)
   /\ look_ahead fuel lines i j nc
      = Return (Lookahead None (newconn_scan lines j (window_end lines i - j) nc) None))
  \/ (exists h, first_handler lines i j h
        /\ look_ahead fuel lines i j nc
           = (r <- extract_handler lines (handler_range lines h) 0 [] ;;
              Return (Lookahead (fst <$> r) (newconn_scan lines j (h - j) nc) (snd <$> r)))).
Proof.
  induction fuel as [|fuel IH]; intros j nc Hfuel; [lia|].
  cbn [look_ahead].
  destruct ((j <? length lines) && (j <? i + 20)) eqn:Hcond.
  - apply andb_true_iff in Hcond as [H1%Nat.ltb_lt H2%Nat.ltb_lt].
    destruct (get_lt lines j H1) as (line & Hj & Hget).
    rewrite Hget. cbn [bind].
    assert (Hh : is_handler lines j = Py.contains HANDLER_SIG line)
      by (unfold is_handler, at_line; by rewrite Hj).
    destruct (Py.contains HANDLER_SIG line) eqn:Hsig.
    + right. exists j. split.
      * unfold first_handler, window_end. repeat split; [lia|lia|exact Hh|].
        intros m Hm. lia.
      * by rewrite Nat.sub_diag.
    + rewrite Nat.add_1_r.
      assert (Hnc : (if Py.contains NEWCONN_OLD line then Some j else nc)
                    = upd_newconn lines nc j)
        by (unfold upd_newconn, is_newconn, at_line; by rewrite Hj).
      rewrite Hnc.
      destruct (IH (S j) (upd_newconn lines nc j) ltac:(lia))
        as [[Hall Hr]|(h & (Hh1 & Hh2 & Hh3) & Hr)].
      * left. split.
        { intros m Hm. destruct (decide (m = j)) as [->|Hne]; [exact Hh|].
          apply Hall. lia. }
        rewrite Hr. unfold window_end.
        replace (Nat.min (i + 20) (length lines) - j)
          with (S (Nat.min (i + 20) (length lines) - S j)) by lia.
        by rewrite newconn_scan_cons.
      * right. exists h. split.
        { unfold first_handler. repeat split; [lia|lia|exact Hh2|].
          intros m Hm. destruct (decide (m = j)) as [->|Hne]; [exact Hh|].
          apply Hh3. lia. }
        rewrite Hr. replace (h - j) with (S (h - S j)) by lia.
        by rewrite newconn_scan_cons.
  - left. assert (window_end lines i <= j).
    { unfold window_end. apply andb_false_iff in Hcond as [H%Nat.ltb_ge|H%Nat.ltb_ge]; lia. }
    split; [intros m Hm; lia|].
    replace (window_end lines i - j) with 0 by lia. reflexivity.
Qed.

Lemma newconn_scan_None j c :
  newconn_scan lines j c None = None
  <-> forall m, j <= m < j + c -> is_newconn lines m = false.
Proof.
  induction c as [|c IH].
  - split; [intros _ m Hm; lia|reflexivity].
  - rewrite newconn_scan_snoc. unfold upd_newconn at 1.
    destruct (is_newconn lines (j + c)) eqn:E.
    + split; [discriminate|]. intros H. rewrite H in E by lia. discriminate.
    + rewrite IH. split; intros H m Hm.
      * destruct (decide (m = j + c)) as [->|Hne]; [exact E|]. apply H. lia.
      * apply H. lia.
Qed.

Lemma newconn_scan_Some j c n :
  newconn_scan lines j c None = Some n
  <-> j <= n < j + c /\ is_newconn lines n = true
      /\ forall m, n < m < j + c -> is_newconn lines m = false.
Proof.
  induction c as [|c IH].
  - split; [discriminate|intros [H _]; lia].
  - rewrite newconn_scan_snoc. unfold upd_newconn at 1.
    destruct (is_newconn lines (j + c)) eqn:E.
    + split.
      * intros [= <-]. repeat split; [lia|lia|exact E|]. intros m Hm. lia.
      * intros (Hn & Hn1 & Hn2). f_equal.
        destruct (decide (n = j + c)) as [->|Hne]; [reflexivity|].
        rewrite Hn2 in E by lia. discriminate.
    + rewrite IH. split.
      * intros (Hn & Hn1 & Hn2). repeat split; [lia|lia|exact Hn1|].
        intros m Hm. destruct (decide (m = j + c)) as [->|Hne]; [exact E|].
        apply Hn2. lia.
      * intros (Hn & Hn1 & Hn2).
        assert (n <> j + c) by (intros ->; rewrite E in Hn1; discriminate).
        repeat split; [lia|lia|exact Hn1|]. intros m Hm. apply Hn2. lia.
Qed.

Lemma first_handler_unique i j h h' :
  first_handler lines i j h -> first_handler lines i j h' -> h = h'.
Proof.
  intros (H1 & H2 & H3) (H1' & H2' & H3').
  destruct (Nat.lt_trichotomy h h') as [Hlt|[Heq|Hgt]]; [|exact Heq|].
  - rewrite H3' in H2 by lia. discriminate.
  - rewrite H3 in H2' by lia. discriminate.
Qed.

End LookAhead.

(** Both indices set by the scan from the loop line [i] lie between
    [i + 1] and [i + 19]. *)
Lemma look_ahead_window lines i st :
  look_ahead 20 lines i (i + 1) None = Return st ->
  (forall hd, handler_def st = Some hd ->
     exists h, i < h < i + 20 /\ is_handler lines h = true)
  /\ (forall n, newconn_line_idx st = Some n ->
        i < n < i + 20 /\ is_newconn lines n = true).
Proof.
  intros Hst.
  destruct (look_ahead_cases lines i 20 (i + 1) None ltac:(lia))
    as [[_ Hr]|(h & (Hh1 & Hh2 & _) & Hr)]; rewrite Hr in Hst.
  - injection Hst as <-. cbn [handler_def newconn_line_idx].
    split; [discriminate|]. intros n Hn.
    apply newconn_scan_Some in Hn as (Hn1 & Hn2 & _).
    unfold window_end in Hn1. split; [lia|exact Hn2].
  - destruct (extract_handler lines (handler_range lines h) 0 []) as [r| |];
      cbn [bind] in Hst; [|discriminate..].
    injection Hst as <-. cbn [handler_def newconn_line_idx].
    unfold window_end in Hh1. split.
    + intros hd _. exists h. split; [lia|exact Hh2].
    + intros n Hn. apply newconn_scan_Some in Hn as (Hn1 & Hn2 & _).
      split; [lia|exact Hn2].
Qed.

(** ** The re-emission loop *)

(** The four branches of source lines 65-75. *)
Ltac re_emit_cases i n line :=
  destruct (i =? n);
  [|destruct (Py.contains HANDLER_DEF line);
    [|destruct (Py.contains SERVE_OLD line)]].

Lemma fix_calls_spec lines n s : forall fuel i result,
  s < length lines -> i <= s + 1 -> s + 1 - i < fuel ->
  fix_calls fuel lines n s i result
  = Return (s + 1, result ++ flat_map (emit_line lines n) (seq i (s + 1 - i))).
Proof.
  induction fuel as [|fuel IH]; intros i result Hs Hi Hfuel; [lia|].
  cbn [fix_calls]. destruct (i <=? s) eqn:Hle.
  - apply Nat.leb_le in Hle.
    destruct (get_lt lines i ltac:(lia)) as (line & Hline & Hget).
    rewrite Hget. cbn [bind].
    replace (s + 1 - i) with (S (s + 1 - (i + 1))) by lia.
    cbn [seq flat_map]. rewrite !(Nat.add_1_r i).
    unfold emit_line at 1. rewrite Hline. cbn [from_option].
    re_emit_cases i n line;
      rewrite IH by lia; try rewrite <- app_assoc; reflexivity.
  - apply Nat.leb_gt in Hle. replace (s + 1 - i) with 0 by lia.
    replace i with (s + 1) by lia. by rewrite app_nil_r.
Qed.

Lemma fix_calls_index_error lines n s : forall fuel i result,
  i <= length lines -> length lines <= s -> length lines - i < fuel ->
  fix_calls fuel lines n s i result = Raise IndexError.
Proof.
  induction fuel as [|fuel IH]; intros i result Hi Hs Hfuel; [lia|].
  cbn [fix_calls].
  assert (Hle : (i <=? s) = true) by (apply Nat.leb_le; lia). rewrite Hle.
  destruct (decide (i = length lines)) as [->|Hne].
  - unfold get. rewrite (lookup_ge_None_2 lines (length lines)) by lia. reflexivity.
  - destruct (get_lt lines i ltac:(lia)) as (line & Hline & Hget).
    rewrite Hget. cbn [bind].
    re_emit_cases i n line;
      apply IH; lia.
Qed.

Lemma fix_calls_total lines n s : forall fuel i result,
  s + 1 - i < fuel ->
  fix_calls fuel lines n s i result = Raise IndexError
  \/ exists r, fix_calls fuel lines n s i result = Return (Nat.max i (s + 1), r).
Proof.
  induction fuel as [|fuel IH]; intros i result Hfuel; [lia|].
  cbn [fix_calls]. destruct (i <=? s) eqn:Hle.
  - apply Nat.leb_le in Hle. unfold get.
    destruct (lines !! i) as [line|]; [|by left]. cbn [bind].
    replace (Nat.max i (s + 1)) with (Nat.max (i + 1) (s + 1)) by lia.
    re_emit_cases i n line;
      apply IH; lia.
  - apply Nat.leb_gt in Hle. right. exists result. do 2 f_equal. lia.
Qed.

Lemma flat_map_emit_plain lines n : forall c a,
  a + c <= length lines ->
  (forall m, a <= m < a + c -> m <> n /\ is_handler_def lines m = false) ->
  flat_map (emit_line lines n) (seq a c) = map fix_serve (slice lines a (a + c)).
Proof.
  induction c as [|c IH]; intros a Hlen Hplain.
  - by rewrite Nat.add_0_r, slice_nil.
  - destruct (get_lt lines a ltac:(lia)) as (line & Hline & _).
    destruct (Hplain a ltac:(lia)) as [Hne Hdef].
    cbn [seq flat_map]. rewrite IH; [|lia|intros m Hm; apply Hplain; lia].
    replace (a + S c) with (S (a + c)) by lia.
    rewrite (slice_cons _ _ _ _ Hline) by lia.
    replace (S a + c) with (S (a + c)) by lia.
    unfold emit_line. rewrite Hline. cbn [from_option].
    apply Nat.eqb_neq in Hne. rewrite Hne.
    unfold is_handler_def, at_line in Hdef. rewrite Hline in Hdef. cbn in Hdef.
    rewrite Hdef. cbn [map]. unfold fix_serve at 2.
    destruct (Py.contains SERVE_OLD line); reflexivity.
Qed.

Lemma flat_map_emit_range lines n a b :
  a <= b -> b <= length lines ->
  (forall m, a <= m < b -> m <> n /\ is_handler_def lines m = false) ->
  flat_map (emit_line lines n) (seq a (b - a)) = map fix_serve (slice lines a b).
Proof.
  intros Hab Hb Hplain. rewrite flat_map_emit_plain; [|lia|].
  - by replace (a + (b - a)) with b by lia.
  - intros m Hm. apply Hplain. lia.
Qed.

Lemma emit_region lines i n h ln :
  single_line_match lines i n h -> lines !! n = Some ln ->
  flat_map (emit_line lines n) (seq (i + 1) (h + 2 + 1 - (i + 1)))
  = map fix_serve (slice lines (i + 1) n)
    ++ [Py.replace NEWCONN_OLD NEWCONN_NEW ln]
    ++ map fix_serve (slice lines (n + 1) h)
    ++ map fix_serve (slice lines (h + 1) (h + 3)).
Proof.
  intros ((Hh1 & Hh2 & Hh3) & Hc & (Hn1 & Hn2 & Hn3) & Hlen & Hdef) Hln.
  rewrite (seq_split (i + 1) n (h + 2 + 1)) by lia.
  rewrite (seq_split n (n + 1) (h + 2 + 1)) by lia.
  rewrite (seq_split (n + 1) h (h + 2 + 1)) by lia.
  rewrite (seq_split h (h + 1) (h + 2 + 1)) by lia.
  rewrite !flat_map_app.
  replace (n + 1 - n) with 1 by lia. replace (h + 1 - h) with 1 by lia.
  cbn [seq flat_map]. rewrite !app_nil_r.
  replace (h + 2 + 1) with (h + 3) by lia.
  destruct (at_line_Some _ _ _ Hh2) as (lh & Hlh & Hsig).
  rewrite !flat_map_emit_range; try lia.
  - f_equal. f_equal.
    + unfold emit_line. rewrite Hln. cbn [from_option]. by rewrite Nat.eqb_refl.
    + f_equal. unfold emit_line. rewrite Hlh. cbn [from_option].
      assert (Hne : (h =? n) = false) by (apply Nat.eqb_neq; lia).
      by rewrite Hne, (handler_sig_def _ Hsig).
  - intros m Hm. split; [lia|]. apply Hdef; lia.
  - intros m Hm. split; [lia|]. apply Hdef; lia.
  - intros m Hm. split; [lia|]. apply Hdef; lia.
Qed.

(** ** The outer loop *)

Lemma loop_body_not_loop lines i :
  i < length lines -> is_loop lines i = false -> copies lines i.
Proof.
  intros Hi Hl. destruct (get_lt lines i Hi) as (line & Hline & Hget).
  exists line. split; [exact Hline|]. intros result.
  unfold loop_body. rewrite Hget. cbn [bind].
  unfold is_loop, at_line in Hl. rewrite Hline in Hl. simpl in Hl.
  by rewrite Hl.
Qed.

Lemma loop_body_miss lines i :
  i < length lines -> pattern_miss lines i -> copies lines i.
Proof.
  intros Hi Hmiss. destruct (get_lt lines i Hi) as (line & Hline & Hget).
  exists line. split; [exact Hline|]. intros result.
  unfold loop_body. rewrite Hget. cbn [bind].
  destruct (Py.contains LOOP line); [|reflexivity].
  destruct (look_ahead_cases lines i 20 (i + 1) None ltac:(lia))
    as [[Hall Hr]|(h & Hh & Hr)].
  - rewrite Hr. reflexivity.
  - rewrite Hr.
    destruct (extract_handler_cases lines h) as [[Hx Hnone]|(e & He & Hx)];
      rewrite Hx; [reflexivity|].
    cbn [bind fmap option_fmap option_map handler_def newconn_line_idx fst].
    destruct Hmiss as [Ha|[Hb|(h' & Hh' & Hc)]].
    + destruct Hh as (Hh1 & Hh2 & _). rewrite Ha in Hh2 by lia. discriminate.
    + assert (Hn : newconn_scan lines (i + 1) (h - (i + 1)) None = None).
      { apply newconn_scan_None. intros m Hm. apply Hb.
        destruct Hh as (Hh1 & _). lia. }
      rewrite Hn. by rewrite andb_false_r.
    + rewrite (first_handler_unique _ _ _ _ _ Hh' Hh) in Hc.
      destruct He as (He1 & He2 & _). rewrite Hc in He2 by lia. discriminate.
Qed.

Lemma not_fully_matched_miss lines i : not_fully_matched lines i -> pattern_miss lines i.
Proof.
  intros [H|[H|(h & Hh & H)]]; [by left|by right; left|].
  right; right. exists h. split; [exact Hh|].
  intros k Hk. by apply closes_depth, H.
Qed.

(** The body of the outer loop on the rewriting branch: the relocated
    block, the separator and the loop line are appended, then the
    re-emission loop runs up to the usage index [e + 2]. *)
Lemma loop_body_rewrite lines i line h e n result :
  lines !! i = Some line -> Py.contains LOOP line = true ->
  first_handler lines i (i + 1) h -> block_end lines h e ->
  newconn_scan lines (i + 1) (h - (i + 1)) None = Some n ->
  loop_body lines i result
  = fix_calls (e + 2 + 2) lines n (e + 2) (i + 1)
      (result ++ [TAB +:+ Py.strip (Py.join NL (slice lines h (S e))); EmptyString; line]).
Proof.
  intros Hline Hloop Hh He Hn.
  unfold loop_body. rewrite (get_Some _ _ _ Hline). cbn [bind]. rewrite Hloop.
  destruct (look_ahead_cases lines i 20 (i + 1) None ltac:(lia))
    as [[Hall Hr]|(h' & Hh' & Hr)].
  { destruct Hh as (Hh1 & Hh2 & _). rewrite Hall in Hh2 by lia. discriminate. }
  rewrite (first_handler_unique _ _ _ _ _ Hh' Hh) in Hr. rewrite Hr.
  destruct (extract_handler_cases lines h) as [[Hx Hnone]|(e' & He' & Hx)].
  { destruct He as (He1 & He2 & _). rewrite Hnone in He2 by lia. discriminate. }
  rewrite (block_end_unique _ _ _ _ He' He) in Hx. rewrite Hx, Hn.
  cbn [bind fmap option_fmap option_map handler_def newconn_line_idx serve_line_idx fst snd].
  destruct Hh as (Hh1 & Hh2 & _).
  destruct (at_line_Some _ _ _ Hh2) as (lh & Hlh & Hsig).
  destruct He as (He1 & _).
  rewrite (slice_cons _ _ _ _ Hlh) by lia.
  rewrite nonblank_not_empty
    by (apply nonblank_join_head; by apply handler_sig_nonblank).
  apply newconn_scan_Some in Hn as (Hn1 & _).
  destruct n as [|n]; [lia|]. cbn [Py.truthy_int andb].
  by rewrite <- !app_assoc.
Qed.

(** Whenever the rewriting branch is taken with a usage index [e + 2]
    that is not a line of the text, the re-emission loop reads past the
    last line. *)
Lemma rewrite_past_end lines i line h e n result :
  lines !! i = Some line -> Py.contains LOOP line = true ->
  first_handler lines i (i + 1) h -> block_end lines h e ->
  newconn_scan lines (i + 1) (h - (i + 1)) None = Some n ->
  length lines <= e + 2 ->
  loop_body lines i result = Raise IndexError.
Proof.
  intros Hline Hloop Hh He Hn Hlen.
  rewrite (loop_body_rewrite lines i line h e n result Hline Hloop Hh He Hn).
  apply lookup_lt_Some in Hline.
  apply fix_calls_index_error; lia.
Qed.

Lemma main_loop_step lines fuel i result i' result' :
  i < length lines -> loop_body lines i result = Return (i', result') ->
  main_loop (S fuel) lines i result = main_loop fuel lines i' result'.
Proof.
  intros Hi Hbody. cbn [main_loop].
  apply Nat.ltb_lt in Hi. rewrite Hi, Hbody. reflexivity.
Qed.

Lemma main_loop_copy lines : forall fuel i result,
  length lines - i < fuel ->
  (forall m, i <= m < length lines -> copies lines m) ->
  main_loop fuel lines i result = Return (result ++ drop i lines).
Proof.
  induction fuel as [|fuel IH]; intros i result Hfuel Hcopy; [lia|].
  cbn [main_loop]. destruct (i <? length lines) eqn:Hi.
  - apply Nat.ltb_lt in Hi.
    destruct (Hcopy i ltac:(lia)) as (line & Hline & Hbody).
    rewrite Hbody. cbn [bind fst snd]. rewrite IH.
    + rewrite (drop_S _ _ _ Hline), <- app_assoc, Nat.add_1_r. reflexivity.
    + lia.
    + intros m Hm. apply Hcopy. lia.
  - apply Nat.ltb_ge in Hi. by rewrite drop_ge, app_nil_r.
Qed.

Lemma main_loop_prefix lines : forall k fuel i result,
  i + k <= length lines ->
  (forall m, i <= m < i + k -> copies lines m) ->
  main_loop (k + fuel) lines i result
  = main_loop fuel lines (i + k) (result ++ slice lines i (i + k)).
Proof.
  induction k as [|k IH]; intros fuel i result Hlen Hcopy.
  - by rewrite Nat.add_0_r, slice_nil, app_nil_r.
  - destruct (Hcopy i ltac:(lia)) as (line & Hline & Hbody).
    assert (Hi : i < length lines) by lia.
    cbn [Nat.add]. rewrite (main_loop_step _ _ _ _ _ _ Hi (Hbody result)).
    rewrite Nat.add_1_r, IH; [|lia|intros m Hm; apply Hcopy; lia].
    replace (i + S k) with (S (i + k)) by lia.
    replace (S i + k) with (S (i + k)) by lia.
    rewrite (slice_cons lines i (i + k) line Hline) by lia.
    by rewrite <- app_assoc.
Qed.

Lemma fix_benchmark_pattern_copy content :
  (forall m, m < length (Py.split content) -> copies (Py.split content) m) ->
  fix_benchmark_pattern content = Return content.
Proof.
  intros H. unfold fix_benchmark_pattern.
  rewrite main_loop_copy; [|lia|intros m Hm; apply H; lia].
  cbn [bind]. rewrite drop_0. simpl. by rewrite join_split.
Qed.

Lemma loop_body_total lines i result :
  i < length lines ->
  loop_body lines i result = Raise IndexError
  \/ exists i' r, i < i' /\ loop_body lines i result = Return (i', r).
Proof.
  intros Hi. destruct (get_lt lines i Hi) as (line & Hline & Hget).
  unfold loop_body. rewrite Hget. cbn [bind].
  assert (Hcopy : exists i' r, i < i' /\ Return (i + 1, result ++ [line]) = Return (i', r)).
  { exists (i + 1), (result ++ [line]). split; [lia|reflexivity]. }
  destruct (Py.contains LOOP line); [|by right].
  destruct (look_ahead_cases lines i 20 (i + 1) None ltac:(lia))
    as [[_ Hr]|(h & Hh & Hr)]; rewrite Hr; [by right|].
  destruct (extract_handler_cases lines h) as [[Hx _]|(e & He & Hx)];
    rewrite Hx; [by right|].
  cbn [bind fmap option_fmap option_map handler_def newconn_line_idx serve_line_idx fst snd].
  destruct (Py.truthy_str (Some (Py.join NL (slice lines h (S e))))
            && Py.truthy_int (newconn_scan lines (i + 1) (h - (i + 1)) None)) eqn:Ht;
    [|by right].
  apply andb_true_iff in Ht as [_ Ht].
  destruct (newconn_scan lines (i + 1) (h - (i + 1)) None) as [n|]; [|discriminate Ht].
  destruct (fix_calls_total lines n (e + 2) (e + 2 + 2) (i + 1)
              (((result ++ [TAB +:+ Py.strip (Py.join NL (slice lines h (S e)))])
                ++ [EmptyString]) ++ [line]) ltac:(lia)) as [Hf|(r & Hf)].
  - by left.
  - right. eexists _, r. split; [|exact Hf]. lia.
Qed.

Lemma main_loop_total lines : forall fuel i result,
  length lines - i < fuel ->
  main_loop fuel lines i result = Raise IndexError
  \/ exists r, main_loop fuel lines i result = Return r.
Proof.
  induction fuel as [|fuel IH]; intros i result Hfuel; [lia|].
  cbn [main_loop]. destruct (i <? length lines) eqn:Hi; [|right; eauto].
  apply Nat.ltb_lt in Hi.
  destruct (loop_body_total lines i result Hi) as [Hb|(i' & r & Hlt & Hb)];
    rewrite Hb; [by left|].
  cbn [bind fst snd]. apply IH. lia.
Qed.

(** [fix_benchmark_pattern] always ends: it returns a text or raises
    IndexError; the fuel of the loop models never runs out. *)
Lemma fix_benchmark_pattern_total content :
  fix_benchmark_pattern content = Raise IndexError
  \/ exists out, fix_benchmark_pattern content = Return out.
Proof.
  unfold fix_benchmark_pattern.
  destruct (main_loop_total (Py.split content) (S (length (Py.split content))) 0 []
              ltac:(lia)) as [H|(r & H)]; rewrite H; [by left|right; eauto].
Qed.

(** ** main *)

Lemma main_usage argv w :
  length argv <> 2 ->
  main argv w = (World (files w) (stdout w ++ ["Usage: fix_benchmarks.py <file>"]), Exit 1).
Proof.
  intros H. unfold main. apply Nat.eqb_neq in H. by rewrite H.
Qed.


(** ** Lemmas for the further properties *)

Lemma matched_scan lines i h e n :
  matched lines i h e n ->
  newconn_scan lines (i + 1) (h - (i + 1)) None = Some n.
Proof.
  intros ((Hh1 & _) & _ & Hn & Hn2 & Hn3).
  apply newconn_scan_Some. split; [lia|]. split; [exact Hn2|].
  intros m Hm. apply Hn3. lia.
Qed.

Lemma scan_fails_or_matched lines i :
  scan_fails lines i \/ exists h e n, matched lines i h e n.
Proof.
  destruct (look_ahead_cases lines i 20 (i + 1) None ltac:(lia))
    as [[Hall _]|(h & Hh & _)].
  { left. left. intros j Hj. apply Hall. lia. }
  destruct (extract_handler_cases lines h) as [[_ Hnone]|(e & He & _)].
  { left. right. exists h. split; [exact Hh|]. by left. }
  destruct (newconn_scan lines (i + 1) (h - (i + 1)) None) as [n|] eqn:En.
  - right. exists h, e, n. apply newconn_scan_Some in En as (Hn1 & Hn2 & Hn3).
    pose proof Hh as (Hh1 & _).
    split; [exact Hh|]. split; [exact He|]. split; [lia|]. split; [exact Hn2|].
    intros m Hm. apply Hn3. lia.
  - left. right. exists h. split; [exact Hh|]. right.
    intros m Hm. pose proof Hh as (Hh1 & _).
    eapply newconn_scan_None; [exact En|]. lia.
Qed.

Lemma scan_fails_copies lines i :
  i < length lines -> scan_fails lines i -> copies lines i.
Proof.
  intros Hi Hfail. destruct (get_lt lines i Hi) as (line & Hline & Hget).
  exists line. split; [exact Hline|]. intros result.
  unfold loop_body. rewrite Hget. cbn [bind].
  destruct (Py.contains LOOP line); [|reflexivity].
  destruct (look_ahead_cases lines i 20 (i + 1) None ltac:(lia))
    as [[Hall Hr]|(h & Hh & Hr)]; rewrite Hr; [reflexivity|].
  destruct (extract_handler_cases lines h) as [[Hx Hnone]|(e & He & Hx)];
    rewrite Hx; [reflexivity|].
  cbn [bind fmap option_fmap option_map handler_def newconn_line_idx fst].
  destruct Hfail as [Ha|(h' & Hh' & Hc)].
  - destruct Hh as (Hh1 & Hh2 & _). rewrite Ha in Hh2 by lia. discriminate.
  - rewrite (first_handler_unique _ _ _ _ _ Hh' Hh) in Hc. destruct Hc as [Hc|Hc].
    + destruct He as (He1 & He2 & _). rewrite Hc in He2 by lia. discriminate.
    + assert (Hn : newconn_scan lines (i + 1) (h - (i + 1)) None = None).
      { apply newconn_scan_None. intros m Hm. apply Hc.
        destruct Hh as (Hh1 & _). lia. }
      rewrite Hn. by rewrite andb_false_r.
Qed.

(** The re-emission loop with enough fuel: it returns when the usage
    index is a line of the text and raises IndexError when it is not. *)
Lemma fix_calls_cases lines n s fuel i result :
  i <= length lines -> i <= s + 1 -> s + 1 - i < fuel ->
  (s < length lines
   /\ fix_calls fuel lines n s i result
      = Return (s + 1, result ++ flat_map (emit_line lines n) (seq i (s + 1 - i))))
  \/ (length lines <= s /\ fix_calls fuel lines n s i result = Raise IndexError).
Proof.
  intros Hi His Hfuel. destruct (decide (s < length lines)) as [Hs|Hs].
  - left. split; [exact Hs|]. by apply fix_calls_spec.
  - right. split; [lia|]. apply fix_calls_index_error; lia.
Qed.

Lemma matched_body lines i line h e n result :
  lines !! i = Some line -> Py.contains LOOP line = true ->
  matched lines i h e n ->
  (e + 2 < length lines
   /\ loop_body lines i result
      = Return (e + 2 + 1,
                (result ++ [TAB +:+ Py.strip (Py.join NL (slice lines h (S e)));
                            EmptyString; line])
                ++ flat_map (emit_line lines n) (seq (i + 1) (e + 2 + 1 - (i + 1)))))
  \/ (length lines <= e + 2 /\ loop_body lines i result = Raise IndexError).
Proof.
  intros Hline Hloop Hm. pose proof (matched_scan _ _ _ _ _ Hm) as Hscan.
  destruct Hm as (Hh & He & _).
  rewrite (loop_body_rewrite lines i line h e n result Hline Hloop Hh He Hscan).
  apply lookup_lt_Some in Hline.
  destruct Hh as (Hh1 & _). destruct He as (He1 & _).
  apply fix_calls_cases; lia.
Qed.

Lemma is_loop_line lines i :
  is_loop lines i = true ->
  exists line, lines !! i = Some line /\ Py.contains LOOP line = true /\ i < length lines.
Proof.
  intros H. destruct (at_line_Some _ _ _ H) as (line & Hline & Hl).
  exists line. repeat split; try done. by apply lookup_lt_Some in Hline.
Qed.

Lemma main_loop_returns lines :
  (forall i h e n, is_loop lines i = true -> matched lines i h e n ->
     e + 2 < length lines) ->
  forall fuel i result, length lines - i < fuel ->
  exists r, main_loop fuel lines i result = Return r.
Proof.
  intros Hsafe. induction fuel as [|fuel IH]; intros i result Hfuel; [lia|].
  cbn [main_loop]. destruct (i <? length lines) eqn:Hi; [|eauto].
  apply Nat.ltb_lt in Hi.
  assert (Hb : exists i' r, i < i' /\ loop_body lines i result = Return (i', r)).
  { destruct (is_loop lines i) eqn:Hloop.
    - destruct (is_loop_line _ _ Hloop) as (line & Hline & Hl & _).
      destruct (scan_fails_or_matched lines i) as [Hf|(h & e & n & Hm)].
      + destruct (scan_fails_copies lines i Hi Hf) as (line' & _ & Hc).
        exists (i + 1), (result ++ [line']). split; [lia|apply Hc].
      + pose proof (Hsafe i h e n Hloop Hm) as Hlt.
        pose proof Hm as ((Hh1 & _) & (He1 & _) & _).
        destruct (matched_body lines i line h e n result Hline Hl Hm)
          as [[_ Hb]|[Hge _]]; [|lia].
        eexists _, _. split; [|exact Hb]. lia.
    - destruct (loop_body_not_loop lines i Hi Hloop) as (line' & _ & Hc).
      exists (i + 1), (result ++ [line']). split; [lia|apply Hc]. }
  destruct Hb as (i' & r & Hlt & Hb). rewrite Hb. cbn [bind fst snd].
  apply IH. lia.
Qed.

Lemma loop_body_cases lines i result :
  i < length lines ->
  exists line, lines !! i = Some line
    /\ (loop_body lines i result = Return (i + 1, result ++ [line])
        \/ exists h e n, Py.contains LOOP line = true /\ matched lines i h e n
             /\ ((e + 2 < length lines
                  /\ loop_body lines i result
                     = Return (e + 2 + 1,
                         (result ++ [TAB +:+ Py.strip (Py.join NL (slice lines h (S e)));
                                     EmptyString; line])
                         ++ flat_map (emit_line lines n)
                              (seq (i + 1) (e + 2 + 1 - (i + 1)))))
                 \/ (length lines <= e + 2
                     /\ loop_body lines i result = Raise IndexError))).
Proof.
  intros Hi. destruct (get_lt lines i Hi) as (line & Hline & _).
  exists line. split; [exact Hline|].
  assert (Hcopy : copies lines i ->
            loop_body lines i result = Return (i + 1, result ++ [line])).
  { intros (line' & Hline' & Hc). rewrite Hline in Hline'.
    injection Hline' as <-. apply Hc. }
  destruct (is_loop lines i) eqn:Hloop;
    [|left; by apply Hcopy, loop_body_not_loop].
  destruct (is_loop_line _ _ Hloop) as (line' & Hline' & Hl & _).
  rewrite Hline in Hline'. injection Hline' as <-.
  destruct (scan_fails_or_matched lines i) as [Hf|(h & e & n & Hm)];
    [left; by apply Hcopy, scan_fails_copies|].
  right. exists h, e, n. split; [exact Hl|]. split; [exact Hm|].
  by apply matched_body.
Qed.

Lemma kept_mono line r r' :
  (forall x, x ∈ r -> x ∈ r') -> kept line r -> kept line r'.
Proof. intros H [Hk|[Hk|Hk]]; [left|right; left|right; right]; by apply H. Qed.

Lemma emit_kept lines n m line :
  lines !! m = Some line -> Py.contains HANDLER_DEF line = false ->
  kept line (emit_line lines n m).
Proof.
  intros Hline Hdef. unfold emit_line. rewrite Hline. cbn [from_option].
  rewrite Hdef. destruct (m =? n); [right; left; apply list_elem_of_here|].
  destruct (Py.contains SERVE_OLD line);
    [right; right|left]; apply list_elem_of_here.
Qed.

Lemma flat_map_elem {A B} (f : A -> list B) l a x :
  a ∈ l -> x ∈ f a -> x ∈ flat_map f l.
Proof.
  intros Ha Hx. apply list_elem_of_In, in_flat_map. exists a.
  split; by apply list_elem_of_In.
Qed.

Lemma loop_body_keeps lines i result i' r :
  i < length lines -> loop_body lines i result = Return (i', r) ->
  (exists rest, r = result ++ rest)
  /\ forall m line, i <= m < i' -> lines !! m = Some line ->
       Py.contains HANDLER_DEF line = false -> kept line r.
Proof.
  intros Hi Hb.
  destruct (loop_body_cases lines i result Hi)
    as (line & Hline & [Hc|(h & e & n & Hl & Hm & [[Hlt Hc]|[_ Hc]])]);
    rewrite Hc in Hb; [| |discriminate]; injection Hb as <- <-.
  - split; [eauto|]. intros m line' Hm Hline' _.
    assert (m = i) as -> by lia. rewrite Hline in Hline'. injection Hline' as <-.
    left. apply elem_of_app. right. apply list_elem_of_here.
  - split; [rewrite <- app_assoc; eauto|]. intros m line' Hmi Hline' Hdef.
    destruct (decide (m = i)) as [->|Hne].
    + rewrite Hline in Hline'. injection Hline' as <-.
      left. apply elem_of_app. left. apply elem_of_app. right.
      do 2 apply list_elem_of_further. apply list_elem_of_here.
    + eapply kept_mono; [|exact (emit_kept lines n m line' Hline' Hdef)].
      intros x Hx. apply elem_of_app. right.
      apply (flat_map_elem _ _ m); [|exact Hx].
      apply list_elem_of_In, in_seq. lia.
Qed.

Lemma main_loop_keeps lines : forall fuel i result r,
  main_loop fuel lines i result = Return r ->
  (exists rest, r = result ++ rest)
  /\ forall m line, i <= m -> lines !! m = Some line ->
       Py.contains HANDLER_DEF line = false -> kept line r.
Proof.
  induction fuel as [|fuel IH]; intros i result r Hr; [discriminate|].
  cbn [main_loop] in Hr. destruct (i <? length lines) eqn:Hi.
  - apply Nat.ltb_lt in Hi.
    destruct (loop_body lines i result) as [[i' r']| |] eqn:Hb;
      cbn [bind fst snd] in Hr; [|discriminate..].
    destruct (loop_body_keeps lines i result i' r' Hi Hb) as ((rest1 & ->) & Hk1).
    destruct (IH _ _ _ Hr) as ((rest2 & ->) & Hk2).
    split; [rewrite <- app_assoc; eauto|].
    intros m line Hm Hline Hdef.
    destruct (decide (m < i')) as [Hlt|Hge].
    + eapply kept_mono; [|apply (Hk1 m line); [lia|done..]].
      intros x Hx. apply elem_of_app. by left.
    + apply (Hk2 m line); [lia|done..].
  - apply Nat.ltb_ge in Hi. injection Hr as <-.
    split; [exists []; by rewrite app_nil_r|].
    intros m line Hm Hline _. apply lookup_lt_Some in Hline. lia.
Qed.

Section Shift.

Context (pre l : list string).

Lemma lookup_shift m : (pre ++ l) !! (length pre + m) = l !! m.
Proof.
  rewrite lookup_app_r by lia. f_equal. lia.
Qed.

Lemma at_line_shift p m : at_line p (pre ++ l) (length pre + m) = at_line p l m.
Proof. unfold at_line. by rewrite lookup_shift. Qed.

Lemma depth_fold_shift c : forall h,
  foldr (fun m acc => (delta_at (pre ++ l) m + acc)%Z) 0%Z (seq (length pre + h) c)
  = foldr (fun m acc => (delta_at l m + acc)%Z) 0%Z (seq h c).
Proof.
  induction c as [|c IH]; intros h; [reflexivity|].
  cbn [seq foldr]. rewrite <- Nat.add_succ_r, IH.
  unfold delta_at. by rewrite lookup_shift.
Qed.

Lemma depth_shift h k : depth (pre ++ l) (length pre + h) (length pre + k) = depth l h k.
Proof.
  unfold depth.
  replace (S (length pre + k) - (length pre + h)) with (S k - h) by lia.
  apply depth_fold_shift.
Qed.

Lemma closes_shift h k :
  closes (pre ++ l) (length pre + h) (length pre + k) = closes l h k.
Proof. unfold closes, has_open. by rewrite depth_shift, at_line_shift. Qed.

Lemma window_end_shift i :
  window_end (pre ++ l) (length pre + i) = length pre + window_end l i.
Proof. unfold window_end. rewrite length_app. lia. Qed.

Lemma first_handler_shift i j h :
  first_handler l i j h ->
  first_handler (pre ++ l) (length pre + i) (length pre + j) (length pre + h).
Proof.
  intros (H1 & H2 & H3). unfold first_handler, is_handler.
  rewrite window_end_shift, at_line_shift.
  split; [lia|]. split; [exact H2|]. intros m Hm.
  replace m with (length pre + (m - length pre)) by lia.
  rewrite at_line_shift. apply H3. lia.
Qed.

Lemma block_end_shift h e :
  block_end l h e -> block_end (pre ++ l) (length pre + h) (length pre + e).
Proof.
  intros (H1 & H2 & H3). unfold block_end.
  rewrite length_app, closes_shift.
  split; [lia|]. split; [exact H2|]. intros m Hm.
  replace m with (length pre + (m - length pre)) by lia.
  rewrite closes_shift. apply H3. lia.
Qed.

Lemma matched_shift i h e n :
  matched l i h e n ->
  matched (pre ++ l) (length pre + i) (length pre + h) (length pre + e) (length pre + n).
Proof.
  intros (Hh & He & Hn & Hn2 & Hn3). unfold matched.
  replace (length pre + i + 1) with (length pre + (i + 1)) by lia.
  split; [by apply first_handler_shift|]. split; [by apply block_end_shift|].
  split; [lia|]. unfold is_newconn in *. rewrite at_line_shift.
  split; [exact Hn2|]. intros m Hm.
  replace m with (length pre + (m - length pre)) by lia.
  rewrite at_line_shift. apply Hn3. lia.
Qed.

Lemma scan_fails_shift i :
  scan_fails l i -> scan_fails (pre ++ l) (length pre + i).
Proof.
  intros [Ha|(h & Hh & Hc)].
  - left. intros j Hj. rewrite window_end_shift in Hj.
    replace j with (length pre + (j - length pre)) by lia.
    unfold is_handler. rewrite at_line_shift. apply Ha. lia.
  - right. exists (length pre + h).
    replace (length pre + i + 1) with (length pre + (i + 1)) by lia.
    split; [by apply first_handler_shift|].
    destruct Hc as [Hc|Hc]; [left|right].
    + intros k Hk. rewrite length_app in Hk.
      replace k with (length pre + (k - length pre)) by lia.
      rewrite closes_shift. apply Hc. lia.
    + intros m Hm. replace m with (length pre + (m - length pre)) by lia.
      unfold is_newconn. rewrite at_line_shift. apply Hc. lia.
Qed.

Lemma slice_shift a b : slice (pre ++ l) (length pre + a) (length pre + b) = slice l a b.
Proof.
  unfold slice. rewrite drop_app_add. f_equal. lia.
Qed.

Lemma emit_line_shift n m :
  emit_line (pre ++ l) (length pre + n) (length pre + m) = emit_line l n m.
Proof.
  unfold emit_line. rewrite lookup_shift.
  destruct (l !! m) as [line|]; [|reflexivity]. cbn [from_option].
  destruct (Nat.eqb_spec m n) as [->|Hne].
  - by rewrite Nat.eqb_refl.
  - assert (H : (length pre + m =? length pre + n) = false)
      by (apply Nat.eqb_neq; lia).
    by rewrite H.
Qed.

Lemma flat_map_emit_shift n c : forall a,
  flat_map (emit_line (pre ++ l) (length pre + n)) (seq (length pre + a) c)
  = flat_map (emit_line l n) (seq a c).
Proof.
  induction c as [|c IH]; intros a; [reflexivity|].
  cbn [seq flat_map]. by rewrite <- Nat.add_succ_r, IH, emit_line_shift.
Qed.

(** The iteration at line [i] of [l] and the iteration at the same line
    of [pre ++ l] do the same, up to the shift of the cursor. *)
Lemma loop_body_shift i acc result :
  i < length l ->
  loop_body (pre ++ l) (length pre + i) (acc ++ result)
  = (x <- loop_body l i result ;; Return (length pre + x.1, acc ++ x.2)).
Proof.
  intros Hi.
  assert (Hi' : length pre + i < length (pre ++ l)) by (rewrite length_app; lia).
  destruct (get_lt l i Hi) as (line & Hline & _).
  assert (Hline' : (pre ++ l) !! (length pre + i) = Some line)
    by (by rewrite lookup_shift).
  assert (Hcopy : copies l i -> copies (pre ++ l) (length pre + i) ->
            loop_body (pre ++ l) (length pre + i) (acc ++ result)
            = (x <- loop_body l i result ;; Return (length pre + x.1, acc ++ x.2))).
  { intros (l1 & H1 & Hc1) (l2 & H2 & Hc2).
    rewrite Hline in H1. rewrite Hline' in H2.
    injection H1 as <-. injection H2 as <-.
    rewrite Hc1, Hc2. cbn [bind fst snd].
    do 2 f_equal; [lia|by rewrite app_assoc]. }
  destruct (is_loop l i) eqn:Hloop; cycle 1.
  { apply Hcopy; apply loop_body_not_loop; try done.
    unfold is_loop in *. by rewrite at_line_shift. }
  destruct (is_loop_line _ _ Hloop) as (line' & Hl1 & Hl & _).
  rewrite Hline in Hl1. injection Hl1 as <-.
  destruct (scan_fails_or_matched l i) as [Hf|(h & e & n & Hm)].
  { apply Hcopy; apply scan_fails_copies; try done. by apply scan_fails_shift. }
  pose proof (matched_shift _ _ _ _ Hm) as Hm'.
  destruct (matched_body l i line h e n result Hline Hl Hm) as [[H1 Hb]|[H1 Hb]];
    destruct (matched_body (pre ++ l) (length pre + i) line _ _ _
                (acc ++ result) Hline' Hl Hm') as [[H2 Hb']|[H2 Hb']];
    rewrite length_app in H2; try lia; rewrite Hb, Hb'; [|reflexivity].
  cbn [bind fst snd]. do 2 f_equal; [lia|].
  replace (S (length pre + e)) with (length pre + S e) by lia.
  rewrite slice_shift.
  replace (length pre + i + 1) with (length pre + (i + 1)) by lia.
  replace (length pre + e + 2 + 1 - (length pre + (i + 1)))
    with (e + 2 + 1 - (i + 1)) by lia.
  rewrite flat_map_emit_shift. by rewrite <- !app_assoc.
Qed.

Lemma main_loop_shift : forall fuel i acc result,
  main_loop fuel (pre ++ l) (length pre + i) (acc ++ result)
  = (r <- main_loop fuel l i result ;; Return (acc ++ r)).
Proof.
  induction fuel as [|fuel IH]; intros i acc result; [reflexivity|].
  cbn [main_loop]. rewrite length_app.
  destruct (Nat.ltb_spec i (length l)) as [Hi|Hi].
  - assert (H : (length pre + i <? length pre + length l) = true)
      by (apply Nat.ltb_lt; lia).
    rewrite H, loop_body_shift by exact Hi.
    destruct (loop_body l i result) as [[i' r']| |]; cbn [bind fst snd];
      [apply IH|reflexivity..].
  - assert (H : (length pre + i <? length pre + length l) = false)
      by (apply Nat.ltb_ge; lia).
    by rewrite H.
Qed.

End Shift.

Lemma split_app_nl A B : Py.split (A +:+ NL +:+ B) = Py.split A ++ Py.split B.
Proof.
  induction A as [|c A IH].
  - change (EmptyString +:+ NL +:+ B) with (String Py.newline B).
    cbn [Py.split]. by rewrite Ascii.eqb_refl.
  - change (String c A +:+ NL +:+ B) with (String c (A +:+ NL +:+ B)).
    cbn [Py.split]. rewrite IH.
    destruct (Ascii.eqb c Py.newline); [reflexivity|].
    destruct (Py.split A) as [|x xs] eqn:E; [by apply split_not_nil in E|].
    reflexivity.
Qed.

Lemma append_assoc a b c : (a +:+ b) +:+ c = a +:+ b +:+ c.
Proof.
  induction a as [|x a IH]; [reflexivity|].
  change ((String x a +:+ b) +:+ c) with (String x ((a +:+ b) +:+ c)).
  by rewrite IH.
Qed.

Lemma join_app l1 l2 :
  l1 <> [] -> l2 <> [] ->
  Py.join NL (l1 ++ l2) = Py.join NL l1 +:+ NL +:+ Py.join NL l2.
Proof.
  intros H1 H2. induction l1 as [|x l1 IH]; [done|].
  destruct l1 as [|y l1].
  - destruct l2 as [|z l2]; [done|]. reflexivity.
  - change ((x :: y :: l1) ++ l2) with (x :: (y :: l1) ++ l2).
    change ((y :: l1) ++ l2) with (y :: l1 ++ l2) at 1.
    rewrite !join_cons.
    change (y :: l1 ++ l2) with ((y :: l1) ++ l2).
    rewrite IH by discriminate.
    by rewrite !append_assoc.
Qed.

Lemma main_loop_nonempty lines fuel r :
  lines <> [] -> main_loop fuel lines 0 [] = Return r -> r <> [].
Proof.
  intros Hne Hr. destruct fuel as [|fuel]; [discriminate|].
  cbn [main_loop] in Hr.
  assert (Hi : 0 < length lines) by (destruct lines; [done|simpl; lia]).
  apply Nat.ltb_lt in Hi as Hi'. rewrite Hi' in Hr.
  destruct (loop_body lines 0 []) as [[i' r']| |] eqn:Hb;
    cbn [bind fst snd] in Hr; [|discriminate..].
  destruct (main_loop_keeps _ _ _ _ _ Hr) as ((rest & ->) & _).
  destruct (loop_body_cases lines 0 [] Hi)
    as (line & _ & [Hc|(h & e & n & _ & _ & [[_ Hc]|[_ Hc]])]);
    rewrite Hc in Hb; [| |discriminate]; injection Hb as <- <-; discriminate.
Qed.

Lemma rewrite_lines_preamble pre l :
  (forall line, line ∈ pre -> Py.contains LOOP line = false) ->
  rewrite_lines (pre ++ l) = (r <- rewrite_lines l ;; Return (pre ++ r)).
Proof.
  intros Hpre. unfold rewrite_lines. rewrite length_app.
  replace (S (length pre + length l)) with (length pre + S (length l)) by lia.
  rewrite main_loop_prefix; [|rewrite length_app; lia|]; cycle 1.
  { intros m Hm. apply loop_body_not_loop; [rewrite length_app; lia|].
    unfold is_loop, at_line. rewrite lookup_app_l by lia.
    destruct (pre !! m) as [line|] eqn:E; [|reflexivity].
    apply Hpre. by apply list_elem_of_lookup_2 in E. }
  cbn [Nat.add app]. unfold slice. rewrite Nat.sub_0_r, drop_0, take_app_length.
  pose proof (main_loop_shift pre l (S (length l)) 0 pre []) as H.
  rewrite Nat.add_0_r, app_nil_r in H. exact H.
Qed.

Section Extend.

Context (la lb : list string).

Lemma at_line_app p m : m < length la -> at_line p (la ++ lb) m = at_line p la m.
Proof. intros H. unfold at_line. by rewrite lookup_app_l. Qed.

Lemma depth_fold_app c : forall h,
  h + c <= length la ->
  foldr (fun m acc => (delta_at (la ++ lb) m + acc)%Z) 0%Z (seq h c)
  = foldr (fun m acc => (delta_at la m + acc)%Z) 0%Z (seq h c).
Proof.
  induction c as [|c IH]; intros h Hc; [reflexivity|].
  cbn [seq foldr]. rewrite IH by lia.
  unfold delta_at. by rewrite lookup_app_l by lia.
Qed.

Lemma closes_app h k :
  h <= k < length la -> closes (la ++ lb) h k = closes la h k.
Proof.
  intros H. unfold closes, has_open, depth.
  rewrite depth_fold_app by lia. by rewrite at_line_app by lia.
Qed.

Lemma first_handler_app i j h :
  first_handler la i j h -> first_handler (la ++ lb) i j h.
Proof.
  unfold first_handler, window_end, is_handler. intros (H1 & H2 & H3).
  rewrite length_app. split; [lia|].
  split; [by rewrite at_line_app by lia|].
  intros m Hm. rewrite at_line_app by lia. by apply H3.
Qed.

Lemma block_end_app h e : block_end la h e -> block_end (la ++ lb) h e.
Proof.
  unfold block_end. intros (H1 & H2 & H3). rewrite length_app.
  split; [lia|]. split; [by rewrite closes_app by lia|].
  intros m Hm. rewrite closes_app by lia. by apply H3.
Qed.

Lemma matched_app i h e n : matched la i h e n -> matched (la ++ lb) i h e n.
Proof.
  intros (Hh & He & Hn & Hn2 & Hn3).
  pose proof Hh as (Hh1 & _). unfold window_end in Hh1.
  split; [by apply first_handler_app|]. split; [by apply block_end_app|].
  split; [lia|]. unfold is_newconn in *.
  split; [by rewrite at_line_app by lia|].
  intros m Hm. rewrite at_line_app by lia. by apply Hn3.
Qed.

Lemma slice_app a b : a <= b <= length la -> slice (la ++ lb) a b = slice la a b.
Proof.
  intros H. unfold slice. rewrite drop_app_le by lia.
  apply take_app_le. rewrite length_drop. lia.
Qed.

Lemma emit_line_app n m : m < length la -> emit_line (la ++ lb) n m = emit_line la n m.
Proof. intros H. unfold emit_line. by rewrite lookup_app_l. Qed.

Lemma flat_map_emit_app n c : forall a,
  a + c <= length la ->
  flat_map (emit_line (la ++ lb) n) (seq a c) = flat_map (emit_line la n) (seq a c).
Proof.
  induction c as [|c IH]; intros a Hc; [reflexivity|].
  cbn [seq flat_map]. by rewrite IH, emit_line_app by lia.
Qed.

End Extend.

Lemma main_loop_fuel lines : forall f1 f2 i result,
  length lines - i < f1 -> length lines - i < f2 ->
  main_loop f1 lines i result = main_loop f2 lines i result.
Proof.
  induction f1 as [|f1 IH]; intros f2 i result H1 H2; [lia|].
  destruct f2 as [|f2]; [lia|]. cbn [main_loop].
  destruct (Nat.ltb_spec i (length lines)) as [Hi|Hi]; [|reflexivity].
  destruct (loop_body_cases lines i result Hi)
    as (line & _ & [Hc|(h & e & n & _ & Hm & [[_ Hc]|[_ Hc]])]);
    rewrite Hc; cbn [bind fst snd]; [| |reflexivity].
  - apply IH; lia.
  - destruct Hm as ((Hh1 & _) & (He1 & _) & _). apply IH; lia.
Qed.

(** The lines that the rewriting branch produces for a match. *)
Lemma rewrite_lines_block lines i line h e n :
  (forall m, m < i -> is_loop lines m = false) ->
  lines !! i = Some line -> Py.contains LOOP line = true ->
  matched lines i h e n -> e + 2 < length lines ->
  rewrite_lines lines
  = main_loop (length lines - i) lines (e + 2 + 1)
      ((take i lines
        ++ [TAB +:+ Py.strip (Py.join NL (slice lines h (S e))); EmptyString; line])
       ++ flat_map (emit_line lines n) (seq (i + 1) (e + 2 + 1 - (i + 1)))).
Proof.
  intros Hbefore Hline Hloop Hm Hlt.
  pose proof (lookup_lt_Some _ _ _ Hline) as Hi.
  unfold rewrite_lines.
  replace (S (length lines)) with (i + S (length lines - i)) by lia.
  rewrite main_loop_prefix; [|lia|]; cycle 1.
  { intros m Hm'. apply loop_body_not_loop; [lia|]. apply Hbefore. lia. }
  cbn [Nat.add app]. unfold slice at 1. rewrite Nat.sub_0_r, drop_0.
  destruct (matched_body lines i line h e n (take i lines) Hline Hloop Hm)
    as [[_ Hb]|[Hge _]]; [|lia].
  by rewrite (main_loop_step _ _ _ _ _ _ Hi Hb).
Qed.

Lemma endswith_spec s suffix :
  Serve.endswith s suffix = true <-> exists stem, s = stem +:+ suffix.
Proof.
  induction s as [|c s IH]; cbn [Serve.endswith].
  - destruct (String.eqb_spec EmptyString suffix) as [<-|Hne].
    + split; [by exists EmptyString|done].
    + split; [discriminate|]. intros (stem & H).
      destruct stem; [by destruct Hne|discriminate H].
  - destruct (String.eqb_spec (String c s) suffix) as [<-|Hne].
    + split; [by exists EmptyString|done].
    + rewrite IH. split.
      * intros (stem & ->). by exists (String c stem).
      * intros (stem & H). destruct stem as [|d stem]; [by destruct Hne|].
        injection H as -> ->. by exists stem.
Qed.

(** What [strip] removes and what it leaves. *)
Lemma lstrip_decompose s :
  exists lead, s = lead +:+ Py.lstrip s /\ nonblank lead = false.
Proof.
  induction s as [|c s (lead & Hs & Hl)]; [by exists EmptyString|].
  cbn [Py.lstrip]. destruct (Py.is_space c) eqn:E.
  - exists (String c lead). split.
    + change (String c lead +:+ Py.lstrip s) with (String c (lead +:+ Py.lstrip s)).
      by rewrite <- Hs.
    + cbn [nonblank]. by rewrite E, Hl.
  - by exists EmptyString.
Qed.

Lemma rstrip_decompose s :
  exists trail, s = Py.rstrip s +:+ trail /\ nonblank trail = false
    /\ (Py.rstrip s = EmptyString
        \/ exists pre d, Py.rstrip s = pre +:+ String d EmptyString
                         /\ Py.is_space d = false).
Proof.
  induction s as [|c s (trail & Hs & Ht & Hend)].
  { exists EmptyString. split; [done|]. split; [done|by left]. }
  cbn [Py.rstrip]. destruct (Py.rstrip s) as [|x r] eqn:Er.
  - destruct (Py.is_space c) eqn:E.
    + exists (String c trail). split; [by rewrite Hs|].
      split; [cbn [nonblank]; by rewrite E, Ht|by left].
    + exists trail. split; [by rewrite Hs|]. split; [exact Ht|].
      right. by exists EmptyString, c.
  - exists trail. split.
    + change (String c (String x r) +:+ trail) with (String c (String x r +:+ trail)).
      by rewrite <- Hs.
    + split; [exact Ht|]. right.
      destruct Hend as [Hend|(pre & d & Hpre & Hd)]; [discriminate|].
      exists (String c pre), d. split; [|exact Hd].
      change (String c pre +:+ String d EmptyString)
        with (String c (pre +:+ String d EmptyString)).
      by rewrite <- Hpre.
Qed.

Lemma strip_decompose s :
  nonblank s = true ->
  exists lead trail pre d,
    s = lead +:+ Py.strip s +:+ trail
    /\ nonblank lead = false /\ nonblank trail = false
    /\ Py.strip s = pre +:+ String d EmptyString /\ Py.is_space d = false.
Proof.
  intros Hs. destruct (lstrip_decompose s) as (lead & Hl & Hlead).
  destruct (rstrip_decompose (Py.lstrip s)) as (trail & Hr & Htrail & Hend).
  fold (Py.strip s) in Hr, Hend.
  destruct Hend as [Hend|(pre & d & Hpre & Hd)].
  - exfalso. apply (rstrip_nonblank (Py.lstrip s)); [|exact Hend].
    by rewrite nonblank_lstrip.
  - exists lead, trail, pre, d. split; [by rewrite <- Hr|done].
Qed.

(** The run of the outer loop through a cursor. *)
Lemma loop_body_progress lines i result i' result' :
  loop_body lines i result = Return (i', result') -> i < i' /\ i < length lines.
Proof.
  intros Hb. assert (Hi : i < length lines).
  { destruct (decide (i < length lines)) as [|Hge]; [done|].
    unfold loop_body, get in Hb.
    rewrite (lookup_ge_None_2 lines i) in Hb by lia. discriminate. }
  split; [|exact Hi].
  destruct (loop_body_cases lines i result Hi)
    as (line & _ & [Hc|(h & e & n & _ & Hm & [[_ Hc]|[_ Hc]])]);
    rewrite Hc in Hb; [| |discriminate]; injection Hb as <- _; [lia|].
  destruct Hm as ((Hh1 & _) & (He1 & _) & _). lia.
Qed.

Lemma loop_body_acc lines i result i' result' :
  loop_body lines i result = Return (i', result') ->
  exists rest, result' = result ++ rest
    /\ forall result2, loop_body lines i result2 = Return (i', result2 ++ rest).
Proof.
  intros Hb. destruct (loop_body_progress _ _ _ _ _ Hb) as (_ & Hi).
  destruct (get_lt lines i Hi) as (line & Hline & _).
  assert (Hcopy : copies lines i ->
            exists rest, result' = result ++ rest
              /\ forall result2, loop_body lines i result2 = Return (i', result2 ++ rest)).
  { intros (line' & _ & Hc). rewrite Hc in Hb. injection Hb as <- <-.
    exists [line']. split; [done|]. intros r2. apply Hc. }
  destruct (is_loop lines i) eqn:Hloop;
    [|by apply Hcopy, loop_body_not_loop].
  destruct (is_loop_line _ _ Hloop) as (line' & Hline' & Hl & _).
  destruct (scan_fails_or_matched lines i) as [Hf|(h & e & n & Hm)];
    [by apply Hcopy, scan_fails_copies|].
  destruct (matched_body lines i line' h e n result Hline' Hl Hm) as [[Hlt Hc]|[_ Hc]];
    rewrite Hc in Hb; [|discriminate]. injection Hb as <- <-.
  eexists. split; [by rewrite <- app_assoc|].
  intros r2.
  destruct (matched_body lines i line' h e n r2 Hline' Hl Hm) as [[_ Hc2]|[Hge _]];
    [|lia].
  by rewrite Hc2, <- app_assoc.
Qed.

Lemma reaches_main_loop lines i :
  reaches lines i ->
  exists fuel result,
    length lines - i < fuel
    /\ main_loop (S (length lines)) lines 0 [] = main_loop fuel lines i result.
Proof.
  induction 1 as [|i i' r r' _ (fuel & result & Hfuel & Hrun) Hb].
  - exists (S (length lines)), []. split; [lia|reflexivity].
  - destruct (loop_body_progress _ _ _ _ _ Hb) as (Hlt & Hi).
    destruct (loop_body_acc _ _ _ _ _ Hb) as (rest & _ & Hacc).
    destruct fuel as [|fuel]; [lia|].
    exists fuel, (result ++ rest). split; [lia|].
    by rewrite Hrun, (main_loop_step _ _ _ _ _ _ Hi (Hacc result)).
Qed.

Lemma main_loop_outcome lines : forall fuel i result,
  length lines - i < fuel ->
  (exists r, main_loop fuel lines i result = Return (result ++ r))
  \/ (main_loop fuel lines i result = Raise IndexError /\ usage_past_end lines).
Proof.
  induction fuel as [|fuel IH]; intros i result Hfuel; [lia|].
  cbn [main_loop]. destruct (Nat.ltb_spec i (length lines)) as [Hi|Hi];
    [|left; exists []; by rewrite app_nil_r].
  destruct (loop_body_cases lines i result Hi)
    as (line & Hline & [Hc|(h & e & n & Hl & Hm & [[_ Hc]|[Hge Hc]])]);
    rewrite Hc; cbn [bind fst snd].
  - destruct (IH (i + 1) (result ++ [line]) ltac:(lia)) as [(r & Hr)|Hr];
      [left|by right].
    exists ([line] ++ r). by rewrite Hr, <- app_assoc.
  - pose proof Hm as ((Hh1 & _) & (He1 & _) & _).
    destruct (IH (e + 2 + 1)
                ((result ++ [TAB +:+ Py.strip (Py.join NL (slice lines h (S e)));
                             EmptyString; line])
                 ++ flat_map (emit_line lines n) (seq (i + 1) (e + 2 + 1 - (i + 1))))
                ltac:(lia)) as [(r & Hr)|Hr]; [left|by right].
    eexists. rewrite Hr, <- !app_assoc. reflexivity.
  - right. split; [reflexivity|]. exists i, h, e, n.
    split; [|by split]. unfold is_loop, at_line. by rewrite Hline.
Qed.

(** What an iteration at a cursor of the run appends is part of the
    returned text, unless the run ends in IndexError. *)
Lemma reached_output content i i' emitted :
  reaches (Py.split content) i ->
  (forall result,
     loop_body (Py.split content) i result = Return (i', result ++ emitted)) ->
  (fix_benchmark_pattern content = Raise IndexError
   /\ usage_past_end (Py.split content))
  \/ exists before after,
       fix_benchmark_pattern content
       = Return (Py.join NL (before ++ emitted ++ after)).
Proof.
  intros Hreach Hb. unfold fix_benchmark_pattern.
  destruct (reaches_main_loop _ _ Hreach) as (fuel & result & Hfuel & Hrun).
  destruct (loop_body_progress _ _ _ _ _ (Hb result)) as (Hlt & Hi).
  destruct fuel as [|fuel]; [lia|].
  rewrite Hrun, (main_loop_step _ _ _ _ _ _ Hi (Hb result)).
  destruct (main_loop_outcome (Py.split content) fuel i' (result ++ emitted)
              ltac:(lia)) as [(r & Hr)|(Hr & Hbad)]; rewrite Hr; cbn [bind].
  - right. exists result, r. by rewrite <- app_assoc.
  - by left.
Qed.

Lemma flat_map_seq_at {A} (f : nat -> list A) a m b :
  a <= m < b ->
  flat_map f (seq a (b - a))
  = flat_map f (seq a (m - a)) ++ f m ++ flat_map f (seq (m + 1) (b - (m + 1))).
Proof.
  intros H. rewrite (seq_split a m b) by lia.
  rewrite (seq_split m (m + 1) b) by lia.
  rewrite !flat_map_app. replace (m + 1 - m) with 1 by lia.
  cbn [seq flat_map]. by rewrite app_nil_r.
Qed.

(** What the iteration at a matched loop line appends for one of the
    lines that the re-emission loop visits. *)
Lemma matched_body_at lines i line h e n m :
  lines !! i = Some line -> Py.contains LOOP line = true ->
  matched lines i h e n -> e + 2 < length lines -> i < m <= e + 2 ->
  exists a b, forall result,
    loop_body lines i result
    = Return (e + 2 + 1, result ++ (a ++ emit_line lines n m ++ b)).
Proof.
  intros Hline Hl Hm Hlt Hmi.
  exists ([TAB +:+ Py.strip (Py.join NL (slice lines h (S e))); EmptyString; line]
          ++ flat_map (emit_line lines n) (seq (i + 1) (m - (i + 1)))),
         (flat_map (emit_line lines n) (seq (m + 1) (e + 2 + 1 - (m + 1)))).
  intros result.
  destruct (matched_body lines i line h e n result Hline Hl Hm) as [[_ Hb]|[Hge _]];
    [|lia].
  rewrite Hb. f_equal. f_equal.
  rewrite (flat_map_seq_at _ (i + 1) m (e + 2 + 1)) by lia.
  by rewrite <- !app_assoc.
Qed.

Lemma emit_line_construction_call lines n pre post :
  lines !! n = Some (pre +:+ "NewConnection(mockConn, config" +:+ ")" +:+ post) ->
  Py.count "N"%char pre = 0 -> Py.contains NEWCONN_OLD post = false ->
  emit_line lines n n
  = [pre +:+ "NewConnection(mockConn, config" +:+ ", handler" +:+ ")" +:+ post].
Proof.
  intros Hline Hpre Hpost. unfold emit_line. rewrite Hline. cbn [from_option].
  rewrite Nat.eqb_refl. f_equal. by apply construction_call_gains_handler.
Qed.

Lemma emit_line_usage_call lines n m pre post :
  lines !! m = Some (pre +:+ "conn.Serve(" +:+ "handler" +:+ ")" +:+ post) ->
  m <> n ->
  Py.contains HANDLER_DEF (pre +:+ "conn.Serve(" +:+ "handler" +:+ ")" +:+ post) = false ->
  Py.count "c"%char pre = 0 -> Py.contains SERVE_OLD post = false ->
  emit_line lines n m = [pre +:+ "conn.Serve(" +:+ ")" +:+ post].
Proof.
  intros Hline Hne Hdef Hpre Hpost. unfold emit_line. rewrite Hline. cbn [from_option].
  apply Nat.eqb_neq in Hne. rewrite Hne, Hdef.
  rewrite usage_call_loses_argument by done.
  destruct (Py.contains SERVE_OLD
              (pre +:+ "conn.Serve(" +:+ "handler" +:+ ")" +:+ post)) eqn:E;
    [reflexivity|].
  apply (replace_absent SERVE_OLD SERVE_NEW) in E.
  rewrite usage_call_loses_argument in E by done. by rewrite <- E.
Qed.

(** * The properties of the specification *)

(** ** A single matching block *)

(** C1 as stated fails: this text holds the loop line, the old
    construction call and a well-formed one-line handler block, matched
    within the window; the block is relocated and the construction call
    rewritten, but the usage call stands three lines after the block,
    past the usage index, and keeps its argument. *)
Lemma late_usage_call_kept :
  fix_benchmark_pattern late_usage_example = Return late_usage_output
  /\ Py.split late_usage_output !! 6 = Some "		conn.Serve(handler)"
  /\ Py.contains SERVE_NEW late_usage_output = false.
Proof. repeat split; vm_compute; reflexivity. Qed.

(** C1, amended: when the text has a loop line [i] and no other loop
    line before it or after [h + 2], and [i] is followed in its window by
    the old construction call at [n] and then a handler block that opens
    and closes on the single line [h], with the usage index [h + 2]
    inside the text and no other line up to it holding [handler := func],
    the output is: the lines before the loop line
    unchanged; the handler line stripped and indented by one tab; one
    empty line; the loop line; then the lines [i+1 .. h+2] without line
    [h], where line [n] has the old construction call replaced by the
    call with the extra [handler] argument and every other line has
    [conn.Serve(handler)], if present, replaced by [conn.Serve()]; then
    the lines after [h + 2] unchanged. *)
Theorem single_block_rewrite content i n h loop_line newconn_line handler_line :
  let lines := Py.split content in
  lines !! i = Some loop_line -> Py.contains LOOP loop_line = true ->
  lines !! n = Some newconn_line -> lines !! h = Some handler_line ->
  single_line_match lines i n h ->
  (forall m, m < i \/ h + 2 < m -> is_loop lines m = false) ->
  fix_benchmark_pattern content
  = Return (Py.join NL (single_line_output lines i n h loop_line newconn_line handler_line)).
Proof.
  intros lines Hi Hloop Hn Hh Hmatch Hother.
  pose proof Hmatch as (Hfirst & Hc & (Hn1 & Hn2 & Hn3) & Hlen & Hdef).
  pose proof Hfirst as (Hh1 & _).
  unfold fix_benchmark_pattern. fold lines.
  replace (S (length lines)) with (i + S (length lines - i)) by lia.
  rewrite main_loop_prefix; [|lia|]; cycle 1.
  { intros m Hm. apply loop_body_not_loop; [lia|]. apply Hother. lia. }
  assert (Hbe : block_end lines h h).
  { split; [lia|]. split; [exact Hc|]. intros m Hm. lia. }
  assert (Hscan : newconn_scan lines (i + 1) (h - (i + 1)) None = Some n).
  { apply newconn_scan_Some. split; [lia|]. split; [exact Hn2|].
    intros m Hm. apply Hn3. lia. }
  assert (Hi' : 0 + i < length lines) by lia.
  erewrite main_loop_step; [|exact Hi'|]; cycle 1.
  { cbn [Nat.add]. rewrite (loop_body_rewrite lines i loop_line h h n _ Hi Hloop Hfirst Hbe Hscan).
    apply fix_calls_spec; lia. }
  rewrite main_loop_copy; [|lia|]; cycle 1.
  { intros m Hm. apply loop_body_not_loop; [lia|]. apply Hother. lia. }
  cbn [bind]. do 2 f_equal.
  rewrite (emit_region lines i n h newconn_line Hmatch Hn).
  rewrite (slice_one _ _ _ Hh). cbn [Py.join].
  unfold single_line_output, slice at 1. cbn [Nat.add].
  rewrite Nat.sub_0_r, drop_0.
  replace (h + 2 + 1) with (h + 3) by lia.
  rewrite <- !app_assoc. reflexivity.
Qed.

Lemma single_block_rewrite_witness :
  fix_benchmark_pattern spec_example
  = Return
"func BenchmarkX(b *testing.B) {
	handler := func(req *Request, rw *ResponseWriter) error { return nil }

	for i := 0; i < b.N; i++ {
		mockConn := newMockConn(requestData)
		config := DefaultConnectionConfig()
		conn := NewConnection(mockConn, config, handler)

		conn.Serve()
	}
}".
Proof.
  apply (single_block_rewrite spec_example 1 4 5
           "	for i := 0; i < b.N; i++ {"
           "		conn := NewConnection(mockConn, config)"
           "		handler := func(req *Request, rw *ResponseWriter) error { return nil }");
    try reflexivity.
  - split.
    { split; [vm_compute; lia|]. split; [reflexivity|].
      intros m Hm. assert (m = 2 \/ m = 3 \/ m = 4) as [->|[->| ->]] by lia; reflexivity. }
    split; [reflexivity|]. split.
    { split; [lia|]. split; [reflexivity|]. intros m Hm. lia. }
    split; [vm_compute; lia|].
    intros m Hm H5 H4.
    assert (m = 2 \/ m = 3 \/ m = 6 \/ m = 7) as [->|[->|[->| ->]]] by lia; reflexivity.
  - intros m [Hm|Hm].
    + assert (m = 0) as -> by lia. reflexivity.
    + do 10 (destruct m as [|m]; [try reflexivity; lia|]). reflexivity.
Defined.

(** ** The usage index at the end of the text *)

(** C2 fails on the code: the handler block of this text ends on line 2
    of 4 lines, the usage index is 4, and [lines[4]] raises IndexError. *)
Theorem usage_index_past_end :
  block_end (Py.split eof_example) 2 2
  /\ length (Py.split eof_example) = 4
  /\ fix_benchmark_pattern eof_example = Raise IndexError.
Proof.
  split.
  - split; [vm_compute; lia|]. split; [reflexivity|]. intros m Hm. lia.
  - split; vm_compute; reflexivity.
Qed.

(** ** Suppression of the relocated lines *)

(** C3 fails on the code: the handler block of this text is the lines 2
    and 3; the re-emission loop suppresses only line 2, the one that holds
    [handler := func], so line 3 is emitted with the relocated block and
    again at its original position. *)
Theorem block_line_emitted_twice :
  block_end (Py.split two_line_handler_example) 2 3
  /\ emit_line (Py.split two_line_handler_example) 1 2 = []
  /\ emit_line (Py.split two_line_handler_example) 1 3
     = ["			return rw.WriteJSON(200, map[string]string{}) }"]
  /\ fix_benchmark_pattern two_line_handler_example = Return two_line_handler_output.
Proof.
  split.
  - split; [vm_compute; lia|]. split; [reflexivity|].
    intros m Hm. assert (m = 2) as -> by lia. reflexivity.
  - repeat split; vm_compute; reflexivity.
Qed.

(** ** Block extraction *)

(** C4 as stated fails: in this block with an inner conditional the
    cumulative depth counted from the handler line 2 first returns to
    zero at line 7, inside the 15-line cap, yet no block is extracted,
    because line 7 holds no opening brace; the text is left as it is. *)
Lemma nested_block_not_extracted :
  let lines := Py.split nested_block_example in
  is_handler lines 2 = true
  /\ depth lines 2 7 = 0%Z
  /\ (forall k, 2 <= k < 7 -> depth lines 2 k <> 0%Z)
  /\ 7 < Nat.min (2 + 15) (length lines)
  /\ extract_handler lines (handler_range lines 2) 0 [] = Return None
  /\ fix_benchmark_pattern nested_block_example = Return nested_block_example.
Proof.
  cbv zeta. split; [reflexivity|]. split; [reflexivity|]. split.
  - intros k Hk.
    assert (k = 2 \/ k = 3 \/ k = 4 \/ k = 5 \/ k = 6) as [->|[->|[->|[->| ->]]]]
      by lia; vm_compute; discriminate.
  - split; [vm_compute; lia|]. split; vm_compute; reflexivity.
Qed.

(** C4, amended: the end index [e] of the handler block opened at [h] is
    the first line, within 15 lines of [h] and within the text, at which
    the cumulative depth counted from [h] is zero and which itself holds
    an opening brace; the extracted block is the lines [h..e] joined by
    newlines, and the usage index is [e + 2]. *)
Theorem block_extraction lines h e :
  block_end lines h e ->
  extract_handler lines (handler_range lines h) 0 []
  = Return (Some (Py.join NL (slice lines h (S e)), e + 2)).
Proof.
  intros He.
  destruct (extract_handler_cases lines h) as [[_ Hnone]|(e' & He' & Hx)].
  - destruct He as (He1 & He2 & _). rewrite Hnone in He2 by lia. discriminate.
  - by rewrite (block_end_unique _ _ _ _ He He').
Qed.

Lemma block_extraction_witness :
  extract_handler (Py.split nested_closing_example)
    (handler_range (Py.split nested_closing_example) 0) 0 []
  = Return (Some (Py.join NL (slice (Py.split nested_closing_example) 0 3), 2 + 2)).
Proof.
  apply (block_extraction (Py.split nested_closing_example) 0 2).
  split; [vm_compute; lia|]. split; [reflexivity|].
  intros m Hm. assert (m = 0 \/ m = 1) as [-> | ->] by lia; reflexivity.
Defined.

(** ** Order of the construction call and the handler definition *)

(** C5 as stated fails: both texts hold the construction call inside the
    window of the loop line 0; it is found when it stands before the
    handler definition and not found when it stands after it, and only
    the first text is rewritten. *)
Lemma construction_call_order_matters :
  is_newconn (Py.split call_before_handler) 1 = true
  /\ is_newconn (Py.split call_after_handler) 2 = true
  /\ 2 < window_end (Py.split call_after_handler) 0
  /\ (exists st, look_ahead 20 (Py.split call_before_handler) 0 1 None = Return st
                 /\ newconn_line_idx st = Some 1)
  /\ (exists st, look_ahead 20 (Py.split call_after_handler) 0 1 None = Return st
                 /\ newconn_line_idx st = None)
  /\ fix_benchmark_pattern call_before_handler <> Return call_before_handler
  /\ fix_benchmark_pattern call_after_handler = Return call_after_handler.
Proof.
  split; [reflexivity|]. split; [reflexivity|]. split; [vm_compute; lia|].
  split; [eexists; split; vm_compute; reflexivity|].
  split; [eexists; split; vm_compute; reflexivity|].
  split; [vm_compute; discriminate|vm_compute; reflexivity].
Qed.

(** C5, amended: the look-ahead scans the window once and stops at the
    first handler-definition line [h]; the construction-call index it
    records is the last old construction call strictly between the loop
    line and [h], so a construction call is found only when it stands
    before the handler definition. *)
Theorem construction_call_before_handler lines i h :
  first_handler lines i (i + 1) h ->
  exists st, look_ahead 20 lines i (i + 1) None = Return st
    /\ forall n, newconn_line_idx st = Some n
         <-> (i < n < h /\ is_newconn lines n = true
              /\ forall m, n < m < h -> is_newconn lines m = false).
Proof.
  intros Hh.
  destruct (look_ahead_cases lines i 20 (i + 1) None ltac:(lia))
    as [[Hall _]|(h' & Hh' & Hr)].
  { destruct Hh as (Hh1 & Hh2 & _). rewrite Hall in Hh2 by lia. discriminate. }
  rewrite (first_handler_unique _ _ _ _ _ Hh' Hh) in Hr.
  assert (Hst : exists r, extract_handler lines (handler_range lines h) 0 [] = Return r).
  { destruct (extract_handler_cases lines h) as [[Hx _]|(e & _ & Hx)]; eauto. }
  destruct Hst as (r & Hx). rewrite Hx in Hr. cbn [bind] in Hr.
  eexists. split; [exact Hr|]. cbn [newconn_line_idx]. intros n.
  rewrite newconn_scan_Some. destruct Hh as (Hh1 & _).
  replace (i + 1 + (h - (i + 1))) with h by lia.
  split; intros (H1 & H2 & H3); (split; [lia|by split]).
Qed.

Lemma construction_call_before_handler_witness :
  exists st, look_ahead 20 (Py.split call_before_handler) 0 (0 + 1) None = Return st
    /\ forall n, newconn_line_idx st = Some n
         <-> (0 < n < 2 /\ is_newconn (Py.split call_before_handler) n = true
              /\ forall m, n < m < 2 -> is_newconn (Py.split call_before_handler) m = false).
Proof.
  apply (construction_call_before_handler (Py.split call_before_handler) 0 2).
  split; [vm_compute; lia|]. split; [reflexivity|].
  intros m Hm. assert (m = 1) as -> by lia. reflexivity.
Defined.

(** ** Verbatim passthrough *)

(** C6: when at every loop line of the input the pattern is not fully
    matched within the window that the scan examines (no handler
    definition, or no old construction call, or a handler block whose
    brace depth never returns to zero within the 15-line cap),
    [fix_benchmark_pattern] returns the input text unchanged. *)
Theorem verbatim_on_no_match content :
  (forall i, i < length (Py.split content) ->
     is_loop (Py.split content) i = true ->
     not_fully_matched (Py.split content) i) ->
  fix_benchmark_pattern content = Return content.
Proof.
  intros H. apply fix_benchmark_pattern_copy. intros m Hm.
  destruct (is_loop (Py.split content) m) eqn:Hl.
  - apply loop_body_miss; [exact Hm|]. by apply not_fully_matched_miss, H.
  - by apply loop_body_not_loop.
Qed.

Lemma verbatim_on_no_match_witness :
  is_loop (Py.split unclosed_example) 0 = true
  /\ fix_benchmark_pattern unclosed_example = Return unclosed_example.
Proof.
  split; [reflexivity|].
  apply (verbatim_on_no_match unclosed_example).
  intros i Hi Hl.
  destruct i as [|i]; [|do 3 (destruct i as [|i]; [discriminate Hl|]);
                         vm_compute in Hi; lia].
  right; right. exists 2. split.
  - split; [vm_compute; lia|]. split; [reflexivity|].
    intros m Hm. assert (m = 1) as -> by lia. reflexivity.
  - intros k Hk. vm_compute in Hk.
    assert (k = 2 \/ k = 3) as [-> | ->] by lia; vm_compute; discriminate.
Defined.

(** ** Input already in the new call shape *)

(** C7: on a text already in the new call shape (the construction calls
    carry the handler argument, the usage calls take no argument, so that
    no old-shape pattern matches in any window) the output of
    [fix_benchmark_pattern] is identical to the input. *)
Theorem idempotent_on_migrated content :
  new_call_shape (Py.split content) ->
  fix_benchmark_pattern content = Return content.
Proof.
  intros H. apply fix_benchmark_pattern_copy. intros m Hm.
  apply loop_body_miss; [exact Hm|]. right; left.
  intros j Hj. unfold is_newconn, at_line.
  destruct (Py.split content !! j) as [line|] eqn:E; [|reflexivity].
  apply (H line). by apply list_elem_of_lookup_2 in E.
Qed.

Lemma idempotent_on_migrated_witness :
  fix_benchmark_pattern migrated_example = Return migrated_example.
Proof.
  apply (idempotent_on_migrated migrated_example).
  intros line Hin. apply list_elem_of_In in Hin. vm_compute in Hin.
  repeat (destruct Hin as [<-|Hin]; [split; reflexivity|]). destruct Hin.
Defined.

(** ** The width of the window *)

(** C8 fails on the code: the scan stops before index [i + 20].  With
    the loop line at 0 and the handler definition at line 20 nothing is
    rewritten, while the same block with the handler at line 19 is. *)
Theorem window_stops_before_20 :
  is_handler (Py.split (far_handler 18)) 20 = true
  /\ fix_benchmark_pattern (far_handler 18) = Return (far_handler 18)
  /\ is_handler (Py.split (far_handler 17)) 19 = true
  /\ fix_benchmark_pattern (far_handler 17) <> Return (far_handler 17).
Proof.
  split; [reflexivity|]. split; [vm_compute; reflexivity|].
  split; [reflexivity|]. vm_compute. discriminate.
Qed.

(** ** The command line *)

(** C9 fails on the code: with exactly one argument naming a readable
    and writable file that holds [eof_example], the rewrite raises
    IndexError inside [main]; the file is not overwritten, nothing is
    printed and the process does not end with status 0. *)
Theorem main_index_error :
  main ["fix_benchmarks.py"; "bench_test.go"]
       (World {[ "bench_test.go" := Readable eof_example None ]} [])
  = (World {[ "bench_test.go" := Readable eof_example None ]} [], Uncaught IndexError).
Proof.
  unfold main. cbn [length Nat.eqb negb lookup list_lookup files].
  rewrite lookup_singleton_eq.
  replace (fix_benchmark_pattern eof_example) with (@Raise string IndexError)
    by (vm_compute; reflexivity).
  reflexivity.
Qed.

(** ** The relocated block *)

(** C10: whenever the rewriting branch is taken at a loop line, the
    handler block (the lines [h..e] joined by newlines into one string)
    is appended as one item, with its leading and trailing whitespace
    stripped and one tab in front, followed by the empty separator and
    the loop line.  What is stripped is whitespace only, before a first
    and after a last character that are not whitespace, so the first line
    of the relocated block is indented by exactly one tab whatever its
    original indentation, and the lines strictly inside the block are as
    in the input.  The three items are in what the iteration returns and,
    when the cursor of the run reaches the loop line, in the text that
    [fix_benchmark_pattern] returns; nothing is returned only when a
    usage index lies past the last line and IndexError is raised. *)
Theorem relocated_block_indentation lines i line st :
  lines !! i = Some line -> Py.contains LOOP line = true ->
  look_ahead 20 lines i (i + 1) None = Return st ->
  Py.truthy_str (handler_def st) && Py.truthy_int (newconn_line_idx st) = true ->
  exists h e n hd c rest,
    handler_def st = Some hd /\ newconn_line_idx st = Some n
    /\ serve_line_idx st = Some (e + 2)
    /\ hd = Py.join NL (slice lines h (S e))
    /\ (forall result,
          loop_body lines i result
          = fix_calls (e + 2 + 2) lines n (e + 2) (i + 1)
              (result ++ [TAB +:+ Py.strip hd; EmptyString; line]))
    /\ Py.strip hd = String c rest /\ Py.is_space c = false
    /\ Py.strip hd = Py.join NL (trim_ends (slice lines h (S e)))
    /\ (forall m, h < m < e ->
          trim_ends (slice lines h (S e)) !! (m - h) = lines !! m)
    /\ (exists lead trail pre d,
          hd = lead +:+ Py.strip hd +:+ trail
          /\ nonblank lead = false /\ nonblank trail = false
          /\ Py.strip hd = pre +:+ String d EmptyString /\ Py.is_space d = false)
    /\ (forall result,
          (length lines <= e + 2 /\ loop_body lines i result = Raise IndexError)
          \/ (e + 2 < length lines
              /\ exists after,
                   loop_body lines i result
                   = Return (e + 2 + 1,
                             result ++ [TAB +:+ Py.strip hd; EmptyString; line]
                             ++ after)))
    /\ (forall content,
          Py.split content = lines -> reaches lines i ->
          (fix_benchmark_pattern content = Raise IndexError /\ usage_past_end lines)
          \/ exists before after,
               fix_benchmark_pattern content
               = Return (Py.join NL
                           (before ++ [TAB +:+ Py.strip hd; EmptyString; line]
                            ++ after))).
Proof.
  intros Hline Hloop Hst Htruthy.
  destruct (look_ahead_cases lines i 20 (i + 1) None ltac:(lia))
    as [[_ Hr]|(h & Hh & Hr)]; rewrite Hr in Hst.
  { injection Hst as <-. discriminate Htruthy. }
  destruct (extract_handler_cases lines h) as [[Hx _]|(e & He & Hx)];
    rewrite Hx in Hst; cbn [bind] in Hst; injection Hst as <-.
  { discriminate Htruthy. }
  cbn [fmap option_fmap option_map handler_def newconn_line_idx serve_line_idx fst snd]
    in Htruthy |- *.
  apply andb_true_iff in Htruthy as [_ Hn].
  destruct (newconn_scan lines (i + 1) (h - (i + 1)) None) as [n|] eqn:En;
    [|discriminate Hn].
  pose proof Hh as (Hh1 & Hh2 & _). pose proof He as (He1 & He2 & _).
  destruct (at_line_Some _ _ _ Hh2) as (lh & Hlh & Hsig).
  apply andb_true_iff in He2 as [_ Ho].
  destruct (at_line_Some _ _ _ Ho) as (le & Hle & Hopen).
  assert (Hnb : nonblank (Py.join NL (slice lines h (S e))) = true).
  { rewrite (slice_cons _ _ _ _ Hlh) by lia.
    by apply nonblank_join_head, handler_sig_nonblank. }
  destruct (strip_head _ Hnb) as (c & rest & Hstrip & Hc).
  assert (Hm : matched lines i h e n).
  { apply newconn_scan_Some in En as (Hn1 & Hn2 & Hn3).
    split; [exact Hh|]. split; [exact He|]. split; [lia|]. split; [exact Hn2|].
    intros m Hm. apply Hn3. lia. }
  assert (Hbody : forall result,
            (length lines <= e + 2 /\ loop_body lines i result = Raise IndexError)
            \/ (e + 2 < length lines
                /\ exists after,
                     loop_body lines i result
                     = Return (e + 2 + 1,
                         result ++ [TAB +:+ Py.strip (Py.join NL (slice lines h (S e)));
                                    EmptyString; line]
                         ++ after))).
  { intros result.
    destruct (matched_body lines i line h e n result Hline Hloop Hm)
      as [[Hlt Hb]|[Hge Hb]]; [right|by left].
    split; [exact Hlt|]. eexists. by rewrite Hb, <- app_assoc. }
  exists h, e, n, (Py.join NL (slice lines h (S e))), c, rest.
  split; [reflexivity|]. split; [reflexivity|]. split; [reflexivity|].
  split; [reflexivity|]. split; [intros result; by apply loop_body_rewrite|].
  split; [exact Hstrip|]. split; [exact Hc|]. split.
  { rewrite (slice_cons _ _ _ _ Hlh) by lia.
    apply (strip_join _ _ EmptyString); [by apply handler_sig_nonblank|].
    rewrite <- (slice_cons _ _ _ _ Hlh) by lia.
    rewrite (slice_snoc _ _ _ _ Hle) by lia. rewrite List.last_last.
    by apply open_nonblank. }
  split.
  { intros m Hmi. rewrite trim_ends_interior.
    + rewrite slice_lookup by lia. f_equal. lia.
    + lia.
    + rewrite slice_length by lia. lia. }
  split; [by apply strip_decompose|]. split; [exact Hbody|].
  intros content Hsplit Hreach. subst lines.
  destruct (Hbody []) as [[Hge _]|[Hlt _]].
  - left. destruct (reaches_main_loop _ _ Hreach) as (fuel & result & Hfuel & Hrun).
    unfold fix_benchmark_pattern. rewrite Hrun.
    destruct fuel as [|fuel]; [lia|]. cbn [main_loop].
    pose proof (lookup_lt_Some _ _ _ Hline) as Hi.
    apply Nat.ltb_lt in Hi. rewrite Hi.
    destruct (matched_body _ i line h e n result Hline Hloop Hm) as [[Hlt _]|[_ Hb]];
      [lia|].
    rewrite Hb. split; [reflexivity|]. exists i, h, e, n.
    split; [|by split]. unfold is_loop, at_line. by rewrite Hline.
  - apply (reached_output content i (e + 2 + 1)
             ([TAB +:+ Py.strip (Py.join NL (slice (Py.split content) h (S e)));
               EmptyString; line]
              ++ flat_map (emit_line (Py.split content) n)
                   (seq (i + 1) (e + 2 + 1 - (i + 1))))) in Hreach.
    + destruct Hreach as [Hraise|(before & after & Hout)]; [by left|].
      right. eexists before, _. rewrite Hout, <- !app_assoc. reflexivity.
    + intros result.
      destruct (matched_body _ i line h e n result Hline Hloop Hm)
        as [[_ Hb]|[Hge _]]; [|lia].
      by rewrite Hb, <- !app_assoc.
Qed.

Lemma relocated_block_indentation_witness :
  exists hd c rest before after,
    handler_def two_line_lookahead = Some hd
    /\ Py.strip hd = String c rest /\ Py.is_space c = false
    /\ fix_benchmark_pattern two_line_handler_example
       = Return (Py.join NL
                   (before
                    ++ [TAB +:+ Py.strip hd; EmptyString; "	for i := 0; i < b.N; i++ {"]
                    ++ after)).
Proof.
  destruct (relocated_block_indentation (Py.split two_line_handler_example) 0
              "	for i := 0; i < b.N; i++ {" two_line_lookahead)
    as (h & e & n & hd & c & rest & H1 & _ & _ & _ & _ & H2 & H3 & _ & _ & _ & _ & H4);
    [reflexivity|reflexivity|vm_compute; reflexivity|reflexivity|].
  destruct (H4 two_line_handler_example eq_refl (reaches_start _))
    as [[Hraise _]|(before & after & Hout)].
  - vm_compute in Hraise. discriminate Hraise.
  - exists hd, c, rest, before, after. by repeat split.
Defined.

(** * Further properties of the code *)

(** ** When a loop line is rewritten *)

(** X1: a loop line is copied unchanged exactly when the pattern is not
    matched from it, and takes the rewriting branch exactly when the
    first handler definition of its window is closed by the brace counter
    and an old construction call stands between the loop line and it. *)
Theorem rewritten_iff_matched lines i :
  is_loop lines i = true ->
  (copies lines i <-> ~ exists h e n, matched lines i h e n)
  /\ ((exists h e n, matched lines i h e n) <-> ~ copies lines i).
Proof.
  intros Hloop. destruct (is_loop_line _ _ Hloop) as (line & Hline & Hl & Hi).
  assert (Hexcl : copies lines i -> ~ exists h e n, matched lines i h e n).
  { intros (line' & Hline' & Hcopy) (h & e & n & Hm).
    rewrite Hline in Hline'. injection Hline' as <-.
    specialize (Hcopy []).
    pose proof Hm as ((Hh1 & _) & (He1 & _) & _).
    destruct (matched_body lines i line h e n [] Hline Hl Hm) as [[_ Hb]|[_ Hb]];
      rewrite Hb in Hcopy; [|discriminate].
    injection Hcopy as Hc _. lia. }
  split; split.
  - exact Hexcl.
  - intros Hno. destruct (scan_fails_or_matched lines i) as [Hf|Hm]; [|done].
    by apply scan_fails_copies.
  - intros Hm Hc. by apply (Hexcl Hc).
  - intros Hnc. destruct (scan_fails_or_matched lines i) as [Hf|Hm]; [|done].
    destruct Hnc. by apply scan_fails_copies.
Qed.

Lemma rewritten_iff_matched_witness :
  (copies (Py.split call_after_handler) 0
   <-> ~ exists h e n, matched (Py.split call_after_handler) 0 h e n)
  /\ ((exists h e n, matched (Py.split call_after_handler) 0 h e n)
      <-> ~ copies (Py.split call_after_handler) 0).
Proof.
  apply (rewritten_iff_matched (Py.split call_after_handler) 0). reflexivity.
Defined.

(** ** Texts that pass through *)

(** X2: a text none of whose lines holds the loop text
    [for i := 0; i < b.N; i++] is returned unchanged. *)
Theorem no_loop_line_identity content :
  (forall line, line ∈ Py.split content -> Py.contains LOOP line = false) ->
  fix_benchmark_pattern content = Return content.
Proof.
  intros H. apply fix_benchmark_pattern_copy. intros m Hm.
  apply loop_body_not_loop; [exact Hm|].
  unfold is_loop, at_line.
  destruct (Py.split content !! m) as [line|] eqn:E; [|reflexivity].
  apply H. by apply list_elem_of_lookup_2 in E.
Qed.

Lemma no_loop_line_identity_witness :
  fix_benchmark_pattern plain_example = Return plain_example.
Proof.
  apply (no_loop_line_identity plain_example).
  intros line Hin. apply list_elem_of_In in Hin. vm_compute in Hin.
  repeat (destruct Hin as [<-|Hin]; [reflexivity|]). destruct Hin.
Defined.

(** ** Ending and failing *)

(** X3: [fix_benchmark_pattern] ends on every input: it returns a text
    or raises IndexError, and no other exception; the loops of the model
    never run out of fuel. *)
Theorem rewrite_ends content :
  fix_benchmark_pattern content = Raise IndexError
  \/ exists out, fix_benchmark_pattern content = Return out.
Proof.
  unfold fix_benchmark_pattern.
  destruct (main_loop_total (Py.split content) (S (length (Py.split content))) 0 [])
    as [H|(r & H)]; [lia|..]; rewrite H; cbn [bind]; [by left|right; eauto].
Qed.

(** X4: when the first loop line of the text is matched and the usage
    index [e + 2] of its handler block is not a line of the text, the
    whole call raises IndexError and no text is returned. *)
Theorem first_match_past_end content i line h e n :
  let lines := Py.split content in
  (forall m, m < i -> is_loop lines m = false) ->
  lines !! i = Some line -> Py.contains LOOP line = true ->
  matched lines i h e n ->
  length lines <= e + 2 ->
  fix_benchmark_pattern content = Raise IndexError.
Proof.
  intros lines Hbefore Hline Hloop Hm Hlen.
  pose proof (lookup_lt_Some _ _ _ Hline) as Hi.
  unfold fix_benchmark_pattern. fold lines.
  replace (S (length lines)) with (i + S (length lines - i)) by lia.
  rewrite main_loop_prefix; [|lia|]; cycle 1.
  { intros m Hm'. apply loop_body_not_loop; [lia|]. apply Hbefore. lia. }
  cbn [main_loop Nat.add].
  apply Nat.ltb_lt in Hi. rewrite Hi.
  destruct (matched_body lines i line h e n ([] ++ slice lines 0 i) Hline Hloop Hm)
    as [[Hlt _]|[_ Hb]]; [lia|].
  by rewrite Hb.
Qed.

Lemma first_match_past_end_witness :
  fix_benchmark_pattern eof_example = Raise IndexError.
Proof.
  apply (first_match_past_end eof_example 0 "	for i := 0; i < b.N; i++ {" 2 2 1);
    try reflexivity.
  - intros m Hm. lia.
  - split.
    { split; [vm_compute; lia|]. split; [reflexivity|].
      intros m Hm. assert (m = 1) as -> by lia. reflexivity. }
    split.
    { split; [vm_compute; lia|]. split; [reflexivity|]. intros m Hm. lia. }
    split; [lia|]. split; [reflexivity|]. intros m Hm. lia.
Defined.

(** X5: when every handler block that is matched from a loop line ends
    at least three lines before the end of the text, so that its usage
    index is a line of the text, [fix_benchmark_pattern] returns a text. *)
Theorem usage_index_inside_returns content :
  (forall i h e n, is_loop (Py.split content) i = true ->
     matched (Py.split content) i h e n ->
     e + 2 < length (Py.split content)) ->
  exists out, fix_benchmark_pattern content = Return out.
Proof.
  intros Hsafe. unfold fix_benchmark_pattern.
  destruct (main_loop_returns _ Hsafe (S (length (Py.split content))) 0 []
              ltac:(lia)) as (r & Hr).
  rewrite Hr. cbn [bind]. eauto.
Qed.

Lemma usage_index_inside_returns_witness :
  exists out, fix_benchmark_pattern spec_example = Return out.
Proof.
  apply (usage_index_inside_returns spec_example).
  intros i h e n Hloop (Hh & He & _).
  assert (i = 1) as ->.
  { destruct i as [|[|i]]; [discriminate Hloop|reflexivity|].
    do 9 (destruct i as [|i]; [discriminate Hloop|]). discriminate Hloop. }
  assert (H5 : first_handler (Py.split spec_example) 1 (1 + 1) 5).
  { split; [vm_compute; lia|]. split; [reflexivity|].
    intros m Hm. assert (m = 2 \/ m = 3 \/ m = 4) as [->|[->| ->]] by lia; reflexivity. }
  rewrite (first_handler_unique _ _ _ _ _ Hh H5) in He.
  assert (E5 : block_end (Py.split spec_example) 5 5).
  { split; [vm_compute; lia|]. split; [reflexivity|]. intros m Hm. lia. }
  rewrite (block_end_unique _ _ _ _ He E5). vm_compute. lia.
Defined.

(** X6: when neither of the last two lines of the text holds an opening
    brace, no usage index can fall past the end, and
    [fix_benchmark_pattern] returns a text. *)
Theorem no_brace_in_last_two_lines_returns content :
  (forall m, length (Py.split content) <= m + 2 ->
     has_open (Py.split content) m = false) ->
  exists out, fix_benchmark_pattern content = Return out.
Proof.
  intros Hlast. unfold fix_benchmark_pattern.
  destruct (main_loop_returns (Py.split content)) with
    (fuel := S (length (Py.split content))) (i := 0) (result := @nil string)
    as (r & Hr); [|lia|rewrite Hr; cbn [bind]; eauto].
  intros i h e n _ (_ & (_ & Hc & _) & _).
  apply andb_true_iff in Hc as [_ Ho].
  destruct (decide (e + 2 < length (Py.split content))) as [Hlt|Hge]; [exact Hlt|].
  rewrite Hlast in Ho by lia. discriminate.
Qed.

Lemma no_brace_in_last_two_lines_returns_witness :
  exists out, fix_benchmark_pattern spec_example = Return out.
Proof.
  apply (no_brace_in_last_two_lines_returns spec_example).
  intros m Hm. change (length (Py.split spec_example)) with 10 in Hm.
  do 8 (destruct m as [|m]; [lia|]).
  do 2 (destruct m as [|m]; [reflexivity|]). reflexivity.
Defined.

(** ** The cursor and the window *)

(** X7: one iteration of the outer loop at a line of the text either
    raises IndexError or moves the cursor forward by at least one and at
    most 36 lines, and appends at least one item to the result, changing
    nothing of what the result already holds. *)
Theorem cursor_advances lines i result :
  i < length lines ->
  loop_body lines i result = Raise IndexError
  \/ exists i' rest,
       i < i' <= i + 36 /\ rest <> []
       /\ loop_body lines i result = Return (i', result ++ rest).
Proof.
  intros Hi.
  assert (Hcopy : copies lines i ->
            exists i' rest, i < i' <= i + 36 /\ rest <> []
              /\ loop_body lines i result = Return (i', result ++ rest)).
  { intros (line & _ & Hc). exists (i + 1), [line].
    split; [lia|]. split; [discriminate|apply Hc]. }
  destruct (is_loop lines i) eqn:Hloop;
    [|right; by apply Hcopy, loop_body_not_loop].
  destruct (is_loop_line _ _ Hloop) as (line & Hline & Hl & _).
  destruct (scan_fails_or_matched lines i) as [Hf|(h & e & n & Hm)];
    [right; by apply Hcopy, scan_fails_copies|].
  pose proof Hm as ((Hh1 & _) & (He1 & _) & _). unfold window_end in Hh1.
  destruct (matched_body lines i line h e n result Hline Hl Hm) as [[_ Hb]|[_ Hb]];
    [right|by left].
  exists (e + 2 + 1),
    ([TAB +:+ Py.strip (Py.join NL (slice lines h (S e))); EmptyString; line]
     ++ flat_map (emit_line lines n) (seq (i + 1) (e + 2 + 1 - (i + 1)))).
  split; [lia|]. split; [discriminate|]. by rewrite Hb, <- app_assoc.
Qed.

Lemma cursor_advances_witness :
  loop_body (Py.split spec_example) 1 [] = Raise IndexError
  \/ exists i' rest,
       1 < i' <= 1 + 36 /\ rest <> []
       /\ loop_body (Py.split spec_example) 1 [] = Return (i', [] ++ rest).
Proof.
  apply (cursor_advances (Py.split spec_example) 1 []). vm_compute. lia.
Defined.

(** X8: the scan from a loop line [i] always returns; a handler
    definition and a construction call it records lie among the lines
    [i+1 .. i+19], and the usage index it computes lies in [i+3 .. i+35]. *)
Theorem scan_window lines i :
  exists st, look_ahead 20 lines i (i + 1) None = Return st
    /\ (forall hd, handler_def st = Some hd ->
          exists h, i < h < i + 20 /\ is_handler lines h = true)
    /\ (forall n, newconn_line_idx st = Some n ->
          i < n < i + 20 /\ is_newconn lines n = true)
    /\ (forall s, serve_line_idx st = Some s -> i + 3 <= s <= i + 35).
Proof.
  destruct (look_ahead_cases lines i 20 (i + 1) None ltac:(lia))
    as [[_ Hr]|(h & (Hh1 & Hh2 & _) & Hr)].
  - eexists. split; [exact Hr|]. cbn [handler_def newconn_line_idx serve_line_idx].
    split; [discriminate|]. split; [|discriminate].
    intros n Hn. apply newconn_scan_Some in Hn as (Hn1 & Hn2 & _).
    unfold window_end in Hn1. split; [lia|exact Hn2].
  - unfold window_end in Hh1.
    assert (Hn : forall n, newconn_scan lines (i + 1) (h - (i + 1)) None = Some n ->
                   i < n < i + 20 /\ is_newconn lines n = true).
    { intros n Hn. apply newconn_scan_Some in Hn as (Hn1 & Hn2 & _).
      split; [lia|exact Hn2]. }
    destruct (extract_handler_cases lines h) as [[Hx _]|(e & (He1 & _) & Hx)];
      rewrite Hx in Hr; cbn [bind] in Hr; (eexists; split; [exact Hr|]);
      cbn [fmap option_fmap option_map handler_def newconn_line_idx serve_line_idx fst snd].
    + split; [discriminate|]. split; [exact Hn|discriminate].
    + split; [intros hd _; exists h; split; [lia|exact Hh2]|].
      split; [exact Hn|]. intros s [= <-]. lia.
Qed.

(** ** What the output keeps *)

(** X9: unless it raises IndexError, [fix_benchmark_pattern] returns the
    newline-joined items of a list in which every input line that does
    not hold [handler := func] is still present, unchanged or with the
    construction call or the usage call replaced: only lines that hold
    [handler := func] can be left out. *)
Theorem only_handler_lines_left_out content :
  fix_benchmark_pattern content = Raise IndexError
  \/ exists r, fix_benchmark_pattern content = Return (Py.join NL r)
       /\ forall line, line ∈ Py.split content ->
            Py.contains HANDLER_DEF line = false -> kept line r.
Proof.
  destruct (fix_benchmark_pattern_total content) as [H|(out & H)]; [by left|].
  right. unfold fix_benchmark_pattern in *.
  destruct (main_loop (S (length (Py.split content))) (Py.split content) 0 [])
    as [r| |] eqn:Hr; cbn [bind] in H |- *; [|discriminate..].
  exists r. split; [reflexivity|].
  intros line Hin Hdef. apply list_elem_of_lookup_1 in Hin as (m & Hm).
  destruct (main_loop_keeps _ _ _ _ _ Hr) as (_ & Hk).
  apply (Hk m line); [lia|done..].
Qed.

(** ** Text before the first loop line *)

(** X10: text before the first loop line does not take part in the
    rewriting.  When no line of [A] holds the loop text, rewriting
    [A], a newline and [B] gives [A], a newline and the rewriting of [B],
    and raises IndexError exactly when rewriting [B] alone does. *)
Theorem preamble_passes_through A B :
  (forall line, line ∈ Py.split A -> Py.contains LOOP line = false) ->
  fix_benchmark_pattern (A +:+ NL +:+ B)
  = (out <- fix_benchmark_pattern B ;; Return (A +:+ NL +:+ out)).
Proof.
  intros HA. unfold fix_benchmark_pattern. rewrite split_app_nl.
  change (main_loop (S (length (Py.split A ++ Py.split B)))
            (Py.split A ++ Py.split B) 0 [])
    with (rewrite_lines (Py.split A ++ Py.split B)).
  change (main_loop (S (length (Py.split B))) (Py.split B) 0 [])
    with (rewrite_lines (Py.split B)).
  rewrite (rewrite_lines_preamble _ _ HA).
  destruct (rewrite_lines (Py.split B)) as [r| |] eqn:Hr; cbn [bind];
    [|reflexivity..].
  f_equal. rewrite join_app.
  - by rewrite join_split.
  - apply split_not_nil.
  - by apply (main_loop_nonempty (Py.split B) (S (length (Py.split B)))),
         Hr; apply split_not_nil.
Qed.

Lemma preamble_passes_through_witness :
  fix_benchmark_pattern (preamble_example +:+ NL +:+ call_before_handler)
  = (out <- fix_benchmark_pattern call_before_handler ;;
     Return (preamble_example +:+ NL +:+ out)).
Proof.
  apply (preamble_passes_through preamble_example call_before_handler).
  intros line Hin. apply list_elem_of_In in Hin. vm_compute in Hin.
  repeat (destruct Hin as [<-|Hin]; [reflexivity|]). destruct Hin.
Defined.

(** ** Text after a rewritten block *)

(** X11: a rewritten block and the text after it do not influence each
    other.  When [A] holds one loop line outside the re-emitted lines,
    that loop line is matched and the usage index of its block is a line
    of [A], rewriting [A], a newline and [B] gives the rewriting of [A],
    a newline and the rewriting of [B]. *)
Theorem block_then_rest A B i h e n :
  (forall m, m < i \/ e + 2 < m -> is_loop (Py.split A) m = false) ->
  is_loop (Py.split A) i = true ->
  matched (Py.split A) i h e n ->
  e + 2 < length (Py.split A) ->
  fix_benchmark_pattern (A +:+ NL +:+ B)
  = (outA <- fix_benchmark_pattern A ;;
     outB <- fix_benchmark_pattern B ;;
     Return (outA +:+ NL +:+ outB)).
Proof.
  intros Hother Hloop Hm Hlen.
  destruct (is_loop_line _ _ Hloop) as (line & Hline & Hl & Hi).
  pose proof Hm as ((Hh1 & _) & (He1 & _) & Hn1 & _).
  set (la := Py.split A) in *. set (lb := Py.split B).
  set (R := (take i la
             ++ [TAB +:+ Py.strip (Py.join NL (slice la h (S e))); EmptyString; line])
            ++ flat_map (emit_line la n) (seq (i + 1) (e + 2 + 1 - (i + 1)))).
  assert (Hbefore : forall m, m < i -> is_loop la m = false)
    by (intros m Hm'; apply Hother; lia).
  assert (HA : rewrite_lines la = Return (R ++ drop (e + 2 + 1) la)).
  { rewrite (rewrite_lines_block la i line h e n Hbefore Hline Hl Hm) by lia.
    fold R. apply main_loop_copy; [lia|].
    intros m Hm'. apply loop_body_not_loop; [lia|]. apply Hother. lia. }
  assert (HAB : rewrite_lines (la ++ lb)
                = (r <- rewrite_lines lb ;; Return ((R ++ drop (e + 2 + 1) la) ++ r))).
  { rewrite (rewrite_lines_block (la ++ lb) i line h e n).
    - rewrite take_app_le, slice_app, flat_map_emit_app by lia. fold R.
      rewrite (main_loop_fuel _ _ ((length la - (e + 2 + 1)) + S (length lb)))
        by (rewrite length_app; lia).
      rewrite main_loop_prefix; cycle 1.
      { rewrite length_app. lia. }
      { intros m Hm'. apply loop_body_not_loop; [rewrite length_app; lia|].
        unfold is_loop. rewrite at_line_app by lia. apply Hother. lia. }
      replace (e + 2 + 1 + (length la - (e + 2 + 1))) with (length la) by lia.
      rewrite slice_app by lia. unfold slice at 1.
      rewrite take_ge by (rewrite length_drop; lia).
      pose proof (main_loop_shift la lb (S (length lb)) 0
                    (R ++ drop (e + 2 + 1) la) []) as H.
      rewrite Nat.add_0_r, app_nil_r in H. exact H.
    - intros m Hm'. unfold is_loop. rewrite at_line_app by lia. by apply Hbefore.
    - by apply lookup_app_l_Some.
    - exact Hl.
    - by apply matched_app.
    - rewrite length_app. lia. }
  unfold fix_benchmark_pattern. rewrite split_app_nl. fold la lb.
  change (main_loop (S (length (la ++ lb))) (la ++ lb) 0 [])
    with (rewrite_lines (la ++ lb)).
  change (main_loop (S (length la)) la 0 []) with (rewrite_lines la).
  change (main_loop (S (length lb)) lb 0 []) with (rewrite_lines lb).
  rewrite HAB, HA. cbn [bind].
  destruct (rewrite_lines lb) as [r| |] eqn:Hr; cbn [bind]; [|reflexivity..].
  f_equal. apply join_app.
  - unfold R. destruct (take i la); discriminate.
  - by apply (main_loop_nonempty lb (S (length lb))), Hr; apply split_not_nil.
Qed.

Lemma block_then_rest_witness :
  fix_benchmark_pattern (call_before_handler +:+ NL +:+ second_block_example)
  = (outA <- fix_benchmark_pattern call_before_handler ;;
     outB <- fix_benchmark_pattern second_block_example ;;
     Return (outA +:+ NL +:+ outB)).
Proof.
  apply (block_then_rest call_before_handler second_block_example 0 2 2 1).
  - intros m [Hm|Hm]; [lia|].
    do 5 (destruct m as [|m]; [lia|]). destruct m as [|m]; reflexivity.
  - reflexivity.
  - split.
    { split; [vm_compute; lia|]. split; [reflexivity|].
      intros m Hm. assert (m = 1) as -> by lia. reflexivity. }
    split.
    { split; [vm_compute; lia|]. split; [reflexivity|]. intros m Hm. lia. }
    split; [lia|]. split; [reflexivity|]. intros m Hm. lia.
  - vm_compute. lia.
Defined.

(** ** The two call replacements *)

(** X12: when a matched loop line is rewritten and its construction-call
    line holds the old call once, with no [N] before it, the iteration
    appends that line with the one argument [handler] added to the call
    and nothing else changed; when the cursor of the run reaches the loop
    line, the line so changed is in the text that
    [fix_benchmark_pattern] returns, unless the run ends in IndexError. *)
Theorem construction_call_line_emitted lines i line h e n pre post :
  lines !! i = Some line -> Py.contains LOOP line = true ->
  matched lines i h e n -> e + 2 < length lines ->
  lines !! n = Some (pre +:+ "NewConnection(mockConn, config" +:+ ")" +:+ post) ->
  Py.count "N"%char pre = 0 -> Py.contains NEWCONN_OLD post = false ->
  (exists a b, forall result,
     loop_body lines i result
     = Return (e + 2 + 1,
               result
               ++ (a ++ [pre +:+ "NewConnection(mockConn, config" +:+ ", handler"
                             +:+ ")" +:+ post] ++ b)))
  /\ (forall content,
        Py.split content = lines -> reaches lines i ->
        (fix_benchmark_pattern content = Raise IndexError /\ usage_past_end lines)
        \/ exists before after,
             fix_benchmark_pattern content
             = Return (Py.join NL
                         (before
                          ++ [pre +:+ "NewConnection(mockConn, config" +:+ ", handler"
                                  +:+ ")" +:+ post]
                          ++ after))).
Proof.
  intros Hline Hl Hm Hlt Hn Hpre Hpost.
  pose proof Hm as (_ & (He1 & _) & Hn1 & _).
  destruct (matched_body_at lines i line h e n n Hline Hl Hm Hlt ltac:(lia))
    as (a & b & Hb).
  rewrite (emit_line_construction_call lines n pre post Hn Hpre Hpost) in Hb.
  split; [by exists a, b|].
  intros content <- Hreach.
  destruct (reached_output content i _ _ Hreach Hb) as [Hraise|(before & after & Hout)];
    [by left|right].
  exists (before ++ a), (b ++ after). rewrite Hout. by rewrite <- !app_assoc.
Qed.

Lemma construction_call_line_emitted_witness :
  exists before after,
    fix_benchmark_pattern spec_example
    = Return (Py.join NL
                (before
                 ++ ["		conn := " +:+ "NewConnection(mockConn, config" +:+ ", handler"
                        +:+ ")" +:+ ""]
                 ++ after)).
Proof.
  destruct (construction_call_line_emitted (Py.split spec_example) 1
              "	for i := 0; i < b.N; i++ {" 5 5 4 "		conn := " "")
    as (_ & H); try reflexivity.
  - split.
    { split; [vm_compute; lia|]. split; [reflexivity|].
      intros m Hm. assert (m = 2 \/ m = 3 \/ m = 4) as [->|[->| ->]] by lia; reflexivity. }
    split.
    { split; [vm_compute; lia|]. split; [reflexivity|]. intros m Hm. lia. }
    split; [lia|]. split; [reflexivity|]. intros m Hm. lia.
  - vm_compute. lia.
  - destruct (H spec_example eq_refl) as [[Hraise _]|Hout]; [| |exact Hout].
    + apply (reaches_next _ 0 1 [] ["func BenchmarkX(b *testing.B) {"]);
        [apply reaches_start|reflexivity].
    + vm_compute in Hraise. discriminate Hraise.
Defined.

(** X13: when a matched loop line is rewritten and a line up to the
    usage index, other than the construction-call line and not holding
    [handler := func], holds the old usage call once, with no [c] before
    it, the iteration appends that line with the argument of the call
    removed and nothing else changed; when the cursor of the run reaches
    the loop line, the line so changed is in the text that
    [fix_benchmark_pattern] returns, unless the run ends in IndexError. *)
Theorem usage_call_line_emitted lines i line h e n m pre post :
  lines !! i = Some line -> Py.contains LOOP line = true ->
  matched lines i h e n -> e + 2 < length lines ->
  i < m <= e + 2 -> m <> n ->
  lines !! m = Some (pre +:+ "conn.Serve(" +:+ "handler" +:+ ")" +:+ post) ->
  Py.contains HANDLER_DEF (pre +:+ "conn.Serve(" +:+ "handler" +:+ ")" +:+ post) = false ->
  Py.count "c"%char pre = 0 -> Py.contains SERVE_OLD post = false ->
  (exists a b, forall result,
     loop_body lines i result
     = Return (e + 2 + 1,
               result ++ (a ++ [pre +:+ "conn.Serve(" +:+ ")" +:+ post] ++ b)))
  /\ (forall content,
        Py.split content = lines -> reaches lines i ->
        (fix_benchmark_pattern content = Raise IndexError /\ usage_past_end lines)
        \/ exists before after,
             fix_benchmark_pattern content
             = Return (Py.join NL
                         (before ++ [pre +:+ "conn.Serve(" +:+ ")" +:+ post] ++ after))).
Proof.
  intros Hline Hl Hm Hlt Hmi Hne Hlm Hdef Hpre Hpost.
  destruct (matched_body_at lines i line h e n m Hline Hl Hm Hlt Hmi) as (a & b & Hb).
  rewrite (emit_line_usage_call lines n m pre post Hlm Hne Hdef Hpre Hpost) in Hb.
  split; [by exists a, b|].
  intros content <- Hreach.
  destruct (reached_output content i _ _ Hreach Hb) as [Hraise|(before & after & Hout)];
    [by left|right].
  exists (before ++ a), (b ++ after). rewrite Hout. by rewrite <- !app_assoc.
Qed.

Lemma usage_call_line_emitted_witness :
  exists before after,
    fix_benchmark_pattern spec_example
    = Return (Py.join NL
                (before ++ ["		" +:+ "conn.Serve(" +:+ ")" +:+ ""] ++ after)).
Proof.
  destruct (usage_call_line_emitted (Py.split spec_example) 1
              "	for i := 0; i < b.N; i++ {" 5 5 4 7 "		" "")
    as (_ & H); try reflexivity.
  - split.
    { split; [vm_compute; lia|]. split; [reflexivity|].
      intros m Hm. assert (m = 2 \/ m = 3 \/ m = 4) as [->|[->| ->]] by lia; reflexivity. }
    split.
    { split; [vm_compute; lia|]. split; [reflexivity|]. intros m Hm. lia. }
    split; [lia|]. split; [reflexivity|]. intros m Hm. lia.
  - vm_compute. lia.
  - lia.
  - lia.
  - destruct (H spec_example eq_refl) as [[Hraise _]|Hout]; [| |exact Hout].
    + apply (reaches_next _ 0 1 [] ["func BenchmarkX(b *testing.B) {"]);
        [apply reaches_start|reflexivity].
    + vm_compute in Hraise. discriminate Hraise.
Defined.

(** ** main and the files *)




(** X16: [main] never changes a file other than the one named by its
    argument. *)
Theorem main_other_files_untouched argv w name :
  argv !! 1 <> Some name -> files (main argv w).1 !! name = files w !! name.
Proof.
  intros Hne. unfold main. destruct (negb (length argv =? 2)); [reflexivity|].
  destruct (argv !! 1) as [filename|]; [|reflexivity].
  destruct (files w !! filename) as [[content [e|]|e]|]; try reflexivity;
    destruct (fix_benchmark_pattern content); cbn [fst files]; try reflexivity.
  apply lookup_insert_ne. congruence.
Qed.

Lemma main_other_files_untouched_witness :
  files (main ["fix_benchmarks.py"; "bench_test.go"]
              (World {[ "bench_test.go" := Readable spec_example None ]} [])).1
    !! "other_test.go"
  = files (World {[ "bench_test.go" := Readable spec_example None ]} [])
      !! "other_test.go".
Proof.
  apply (main_other_files_untouched ["fix_benchmarks.py"; "bench_test.go"]
           (World {[ "bench_test.go" := Readable spec_example None ]} [])
           "other_test.go").
  discriminate.
Defined.


(** ** serve.py *)

(** X18: [guess_type] answers [application/wasm] for every path that
    ends in [.wasm], whatever the inherited answer is, and gives the
    inherited answer unchanged for every other path; the test is on the
    exact lower-case suffix. *)
Theorem guess_type_wasm super_guess_type path :
  ((exists stem, path = stem +:+ ".wasm")
   /\ Serve.guess_type super_guess_type path = "application/wasm")
  \/ ((forall stem, path <> stem +:+ ".wasm")
      /\ Serve.guess_type super_guess_type path = super_guess_type path).
Proof.
  unfold Serve.guess_type.
  destruct (Serve.endswith path ".wasm") eqn:E.
  - left. split; [by apply endswith_spec|reflexivity].
  - right. split; [|reflexivity]. intros stem ->.
    assert (H : Serve.endswith (stem +:+ ".wasm") ".wasm" = true)
      by (apply endswith_spec; eauto).
    rewrite H in E. discriminate.
Qed.
